(** * The YOLO training driver [train.py]

    A shallow embedding of the training script: the Python built-ins it
    relies on ([Py]), the script's own functions ([Train]), and the
    properties of the driver proved about them.

    The deep-learning framework, numpy and the sibling modules of the
    repository ([common.utils], [common.callbacks], [yolo3.model], ...) are
    not part of the script.  Their calls are recorded as events of a trace,
    and the values they compute come from an environment record [Env];
    their own failures (a missing file, a layer that does not exist) and
    console output are outside the model. *)

From Stdlib Require Import ZArith List String Ascii Bool Lia Floats.
From Stdlib Require Import DecimalString DecimalPos DecimalZ.
Import ListNotations.

Set Warnings "-inexact-float".

Local Open Scope string_scope.
Local Open Scope Z_scope.

(* ------------------------------------------------------------------ *)
(** ** Python built-ins used by the script *)

Module Py.

(** The exceptions the script or its built-ins can raise. *)
Inductive exn : Type :=
| ValueError (msg : string)
| AssertionError (msg : string)
| ZeroDivisionError (msg : string)
| OverflowError (msg : string)
| IndexError (msg : string).

(** Outcome of an expression or statement. *)
Inductive result (A : Type) : Type :=
| Raised (e : exn)
| Returned (a : A).

Arguments Raised {A} e.
Arguments Returned {A} a.

(** Truth value of an optional string attribute ([None] and [''] are false). *)
Definition truthy (o : option string) : bool :=
  match o with
  | None => false
  | Some s => negb (s =? "")%string
  end.

(** [s.startswith(p)]. *)
Definition startswith (s p : string) : bool := String.prefix p s.

(** Normalisation of a slice or insertion index against a length:
    a negative index counts from the end, and the result is clamped to
    [0 .. len]. *)
Definition clamp_index (len : nat) (i : Z) : nat :=
  let n := Z.of_nat len in
  Z.to_nat (if i <? 0 then Z.max 0 (i + n) else Z.min i n).

(** [l[:i]] and [l[i:]]. *)
Definition slice_to {A} (l : list A) (i : Z) : list A :=
  firstn (clamp_index (List.length l) i) l.

Definition slice_from {A} (l : list A) (i : Z) : list A :=
  skipn (clamp_index (List.length l) i) l.

(** [l.insert(i, x)]. *)
Definition insert {A} (l : list A) (i : Z) (x : A) : list A :=
  let k := clamp_index (List.length l) i in
  (firstn k l ++ x :: skipn k l)%list.

(** [l.remove(x)]: drops the first occurrence, raises when there is none. *)
Fixpoint remove {A} (eqb : A -> A -> bool) (l : list A) (x : A) : result (list A) :=
  match l with
  | [] => Raised (ValueError "list.remove(x): x not in list")
  | y :: l' =>
      if eqb y x then Returned l'
      else match remove eqb l' x with
           | Raised e => Raised e
           | Returned r => Returned (y :: r)
           end
  end.

(** [l[i]] for a non-negative index. *)
Definition getitem {A} (l : list A) (i : nat) : result A :=
  match nth_error l i with
  | Some x => Returned x
  | None => Raised (IndexError "list index out of range")
  end.

(** [range(n)]. *)
Definition range (n : Z) : list nat := seq 0 (Z.to_nat n).

(** [a // b] on integers. *)
Definition floordiv (a b : Z) : result Z :=
  if b =? 0 then Raised (ZeroDivisionError "integer division or modulo by zero")
  else Returned (a / b).

(** [str(n)] and ['{}'.format(n)] for an integer. *)
Definition str_of_int (n : Z) : string := NilZero.string_of_int (Z.to_int n).

(** Conversion of an integer operand to a float (binary64, round to
    nearest even); too large an integer raises. *)
Definition float_of_int (n : Z) : result float :=
  let f := SF2Prim (binary_normalize prec emax n 0 false) in
  if PrimFloat.is_infinity f
  then Raised (OverflowError "int too large to convert to float")
  else Returned f.

(** [n * x] for an integer [n] and a float [x]. *)
Definition int_mul_float (n : Z) (x : float) : result float :=
  match float_of_int n with
  | Raised e => Raised e
  | Returned f => Returned (PrimFloat.mul f x)
  end.

(** [x * n] for a float [x] and an integer [n]. *)
Definition float_mul_int (x : float) (n : Z) : result float :=
  match float_of_int n with
  | Raised e => Raised e
  | Returned f => Returned (PrimFloat.mul x f)
  end.

(** [x / n] for a float [x] and an integer [n]. *)
Definition float_div_int (x : float) (n : Z) : result float :=
  match float_of_int n with
  | Raised e => Raised e
  | Returned f =>
      if PrimFloat.is_zero f then Raised (ZeroDivisionError "float division by zero")
      else Returned (PrimFloat.div x f)
  end.

(** Magnitude of a finite float with mantissa [m] and exponent [e],
    rounded down. *)
Definition magnitude (m : positive) (e : Z) : Z :=
  if 0 <=? e then Zpos m * 2 ^ e else Zpos m / 2 ^ (- e).

(** [int(x)] for a float: truncation toward zero. *)
Definition int_of_float (x : float) : result Z :=
  match Prim2SF x with
  | S754_zero _ => Returned 0
  | S754_infinity _ => Raised (OverflowError "cannot convert float infinity to integer")
  | S754_nan => Raised (ValueError "cannot convert float NaN to integer")
  | S754_finite s m e => Returned (if s then - magnitude m e else magnitude m e)
  end.

(** [math.floor(x)] for a float: the largest integer not above [x]. *)
Definition floor_of_float (x : float) : result Z :=
  match Prim2SF x with
  | S754_zero _ => Returned 0
  | S754_infinity _ => Raised (OverflowError "cannot convert float infinity to integer")
  | S754_nan => Raised (ValueError "cannot convert float NaN to integer")
  | S754_finite s m e =>
      Returned (if s
                then (if 0 <=? e then - (Zpos m * 2 ^ e) else (- Zpos m) / 2 ^ (- e))
                else magnitude m e)
  end.

(** Whether a float is finite and below zero. *)
Definition is_negative (x : float) : bool :=
  match Prim2SF x with
  | S754_finite true _ _ => true
  | _ => false
  end.

(** A value interpolated into an f-string. *)
Inductive fvalue : Type :=
| FInt (n : Z)
| FStr (s : string).

Definition format (v : fvalue) : string :=
  match v with
  | FInt n => str_of_int n
  | FStr s => s
  end.

(** [os.path.join(a, b)] on a POSIX system. *)
Definition path_join (a b : string) : string :=
  if startswith b "/" then b
  else if (a =? "")%string
          || startswith (string_of_list_ascii (rev (list_ascii_of_string a))) "/"
       then (a ++ b)%string
       else (a ++ "/" ++ b)%string.

(** *** Strings

    A [string] stands for a Python string of code points below 256, one
    character each.  [int] is the conversion of an interpreter that puts no
    limit on the number of digits (3.11 introduced a default limit of 4300
    digits), and the messages of a failed unpacking are those of the
    interpreters up to 3.13. *)

(** [s.split(sep)] for a separator of one character: the parts between
    the occurrences of [sep], empty parts included. *)
Fixpoint str_split (sep : ascii) (s : string) : list string :=
  match s with
  | EmptyString => [EmptyString]
  | String c s' =>
      if (c =? sep)%char then EmptyString :: str_split sep s'
      else match str_split sep s' with
           | p :: ps => String c p :: ps
           | [] => [String c EmptyString]
           end
  end.

(** [a, b = l]: unpacking a list into two targets. *)
Definition unpack2 {A} (l : list A) : result (A * A) :=
  match l with
  | [a; b] => Returned (a, b)
  | [] | [_] =>
      Raised (ValueError ("not enough values to unpack (expected 2, got "
                          ++ str_of_int (Z.of_nat (List.length l)) ++ ")"))
  | _ => Raised (ValueError "too many values to unpack (expected 2)")
  end.

(** The white space [int] skips around a number: tab to carriage return,
    the space, and the two spaces of the range above 127. *)
Definition is_space (c : ascii) : bool :=
  let n := nat_of_ascii c in
  ((9 <=? n) && (n <=? 13) || (n =? 32) || (n =? 133) || (n =? 160))%nat.


Fixpoint lstrip (cs : list ascii) : list ascii :=
  match cs with
  | c :: cs' => if is_space c then lstrip cs' else cs
  | [] => []
  end.

Definition strip (cs : list ascii) : list ascii :=
  rev (lstrip (rev (lstrip cs))).

Definition digit_value (c : ascii) : option Z :=
  let n := nat_of_ascii c in
  if ((48 <=? n) && (n <=? 57))%nat then Some (Z.of_nat n - 48) else None.

(** The value of the digits of a decimal literal, read from the left with
    [acc] the value so far.  Single underscores may stand between digits;
    [after_digit] tells whether the previous character was a digit. *)
Fixpoint digits_value (after_digit : bool) (acc : Z) (cs : list ascii) : option Z :=
  match cs with
  | [] => if after_digit then Some acc else None
  | c :: cs' =>
      if (c =? "_")%char then
        if after_digit then digits_value false acc cs' else None
      else
        match digit_value c with
        | Some d => digits_value true (10 * acc + d) cs'
        | None => None
        end
  end.

(** [repr(s)]: the quote is the apostrophe, unless the string holds an
    apostrophe and no double quote; the quote and the backslash are
    escaped, tab, newline and carriage return have their letters, and the
    other characters that do not print are written in hexadecimal. *)
Definition hex_digit (n : nat) : ascii :=
  nth n (list_ascii_of_string "0123456789abcdef") "0"%char.

Definition is_printable (c : ascii) : bool :=
  let n := nat_of_ascii c in
  ((32 <=? n) && (n <=? 126) || (161 <=? n) && negb (n =? 173))%nat.

Definition repr_char (quote c : ascii) : string :=
  let backslash := "092"%char in
  if (c =? quote)%char || (c =? backslash)%char then String backslash (String c "")
  else if (c =? "009")%char then String backslash "t"
  else if (c =? "010")%char then String backslash "n"
  else if (c =? "013")%char then String backslash "r"
  else if is_printable c then String c ""
  else
    let n := nat_of_ascii c in
    String backslash
      (String "x" (String (hex_digit (n / 16)) (String (hex_digit (n mod 16)) ""))).

Definition str_repr (s : string) : string :=
  let cs := list_ascii_of_string s in
  let quote :=
    if existsb (Ascii.eqb "'") cs && negb (existsb (Ascii.eqb "034") cs)
    then "034"%char else "'"%char in
  String quote (concat "" (map (repr_char quote) cs) ++ String quote "").

(** [int(s)] for a string: white space around the number is skipped, one
    sign may precede the digits, and anything else raises; the message
    shows at most 200 characters of the text. *)
Definition int_of_str (s : string) : result Z :=
  let invalid :=
    Raised (ValueError ("invalid literal for int() with base 10: "
                        ++ substring 0 200 (str_repr s))) in
  let body := strip (list_ascii_of_string s) in
  let signed :=
    match body with
    | c :: body' =>
        if (c =? "-")%char then (true, body')
        else if (c =? "+")%char then (false, body')
        else (false, body)
    | [] => (false, body)
    end in
  match digits_value false 0 (snd signed) with
  | Some n => Returned (if fst signed then - n else n)
  | None => invalid
  end.

End Py.

(* ------------------------------------------------------------------ *)
(** ** The script *)

(** The namespace built by the argument parser, [model_input_shape]
    already parsed into a pair of integers (lines 383-384). *)
Module args.

Record t : Type := {
  model_type : string;
  anchors_path : string;
  model_input_shape : Z * Z;
  weights_path : option string;
  annotation_file : string;
  val_annotation_file : option string;
  val_split : float;
  classes_path : string;
  batch_size : Z;
  optimizer : string;
  learning_rate : float;
  average_type : option string;
  decay_type : option string;
  transfer_epoch : Z;
  freeze_level : option Z;
  init_epoch : Z;
  total_epoch : Z;
  multiscale : bool;
  rescale_interval : Z;
  enhance_augment : option string;
  label_smoothing : float;
  multi_anchor_assign : bool;
  elim_grid_sense : bool;
  data_shuffle : bool;
  gpu_num : Z;
  model_pruning : bool;
  quantize_aware_training : bool;
  eval_online : bool;
  eval_epoch_interval : Z;
  save_eval_checkpoint : bool }.

End args.

Module Train.

Import Py.

(** *** Objects of the framework, as the script sees them *)

(** The callback objects [main] creates, named by the variable that holds
    them ([update_pruning_step] and [pruning_summaries] are the two
    anonymous elements of [pruning_callbacks]).  Two references are equal
    when they name the same object. *)
Inductive Callback : Type :=
| logging              (* TensorBoard *)
| checkpoint           (* ModelCheckpoint *)
| checkpoint_q         (* QuantizeModelCheckpoint *)
| reduce_lr            (* ReduceLROnPlateau *)
| early_stopping       (* EarlyStopping *)
| checkpoint_clean     (* CheckpointCleanCallBack *)
| terminate_on_nan     (* TerminateOnNaN *)
| eval_callback        (* EvalCallBack *)
| shuffle_callback     (* DatasetShuffleCallBack *)
| update_pruning_step  (* sparsity.UpdatePruningStep *)
| pruning_summaries    (* sparsity.PruningSummaries *)
| avg_checkpoint.      (* tfa.callbacks.AverageModelCheckpoint *)

Definition Callback_eq_dec (x y : Callback) : {x = y} + {x <> y}.
Proof. decide equality. Defined.

Definition same_callback (x y : Callback) : bool :=
  if Callback_eq_dec x y then true else false.

(** An optimizer object, represented by the call of
    [common.model_utils.get_optimizer] that built it; [decay_steps] is
    [None] when the argument is left to its default. *)
Inductive Optimizer : Type :=
| get_optimizer (optim_type : string) (learning_rate : float)
                (average_type decay_type : option string) (decay_steps : option Z).

(** The three model constructors and the three generator functions. *)
Inductive TrainModelFn : Type :=
| get_yolo5_train_model
| get_yolo3_train_model
| get_yolo2_train_model.

Inductive GeneratorFn : Type :=
| yolo5_data_generator_wrapper
| yolo3_data_generator_wrapper
| yolo2_data_generator_wrapper.

(** Arguments of a [get_train_model] call (lines 215 and 219). *)
Record TrainModelCall : Type := {
  tm_model_type : string;
  tm_anchors : list (float * float);
  tm_num_classes : Z;
  tm_quantize_aware_training : bool;
  tm_weights_path : option string;
  tm_freeze_level : Z;
  tm_optimizer : Optimizer;
  tm_label_smoothing : float;
  tm_elim_grid_sense : bool;
  tm_model_pruning : bool;
  tm_pruning_end_step : Z }.

(** Arguments of a [data_generator] call; an argument the call leaves out
    is [None]. *)
Record GeneratorCall : Type := {
  gen_fn : GeneratorFn;
  gen_annotation_lines : list string;
  gen_batch_size : Z;
  gen_input_shape : Z * Z;
  gen_anchors : list (float * float);
  gen_num_classes : Z;
  gen_enhance_augment : option (option string);
  gen_rescale_interval : option Z;
  gen_multi_anchor_assign : bool }.

(** Arguments of a [fit_generator] call. *)
Record FitCall : Type := {
  fit_generator_arg : GeneratorCall;
  fit_steps_per_epoch : Z;
  fit_validation_data : GeneratorCall;
  fit_validation_steps : Z;
  fit_epochs : Z;
  fit_initial_epoch : Z;
  fit_workers : Z;
  fit_use_multiprocessing : bool;
  fit_max_queue_size : Z;
  fit_callbacks : list Callback }.

Record Layer : Type := {
  layer_name : string;
  trainable : bool }.

Record Model : Type := {
  layers : list Layer;
  compiled_with : Optimizer }.

(** What is handed to a save call: the training model itself, the
    two-output model [save_quantized_model] cuts out of it, or the result
    of [change_input_size]. *)
Inductive Saveable : Type :=
| TrainModel (m : Model)
| SubModel (m : Model) (input : string) (outputs : list string)
| Resized (s : Saveable) (h w ch : Z).

(** A distribution strategy, given by its device list. *)
Definition Strategy : Type := list string.

(** The calls into the framework, in the order they are made. *)
Inductive Event : Type :=
| CallGetOptimizer (o : Optimizer)
| MirroredStrategy (devices : list string)
| CallGetTrainModel (scope : option Strategy) (fn : TrainModelFn) (c : TrainModelCall)
| CallFit (m : Model) (c : FitCall)
| Sleep (seconds : Z)
| Compile (scope : option Strategy) (o : Optimizer)
| StripPruning (m : Model)
| Makedirs (path : string)
| SaveModel (s : Saveable) (path : string)
| WriteTflite (s : Saveable) (path : string).

(** What the rest of the repository and the framework compute. *)
Record Env : Type := {
  get_classes : string -> list string;
  get_anchors : string -> list (float * float);
  get_dataset : string -> list string;
  (** [np.ceil(x).astype(np.int32) * k] *)
  np_ceil_int32_times : float -> Z -> Z;
  (** the model a constructor returns *)
  get_train_model : TrainModelFn -> TrainModelCall -> Model;
  (** the model once [fit_generator] returns *)
  fit_generator : Model -> FitCall -> Model;
  (** the annotation list once a fit with [DatasetShuffleCallBack] returns *)
  shuffled : FitCall -> list string -> list string;
  strip_pruning : Model -> Model }.

(** *** State and control *)

(** The two list objects the script mutates in place, and the trace. *)
Record State : Type := {
  dataset : list string;
  callbacks : list Callback;
  trace : list Event }.

Definition initial_state : State :=
  {| dataset := []; callbacks := []; trace := [] |}.

Definition M (A : Type) : Type := State -> result A * State.

Definition ret {A} (a : A) : M A := fun s => (Returned a, s).

Definition bind {A B} (m : M A) (f : A -> M B) : M B :=
  fun s =>
    match m s with
    | (Raised e, s') => (Raised e, s')
    | (Returned a, s') => f a s'
    end.

Definition lift {A} (r : result A) : M A := fun s => (r, s).

Definition emit (e : Event) : M unit :=
  fun s => (Returned tt,
            {| dataset := dataset s; callbacks := callbacks s;
               trace := (trace s ++ [e])%list |}).

Definition read_dataset : M (list string) := fun s => (Returned (dataset s), s).

Definition write_dataset (d : list string) : M unit :=
  fun s => (Returned tt,
            {| dataset := d; callbacks := callbacks s; trace := trace s |}).

Definition read_callbacks : M (list Callback) := fun s => (Returned (callbacks s), s).

Definition write_callbacks (c : list Callback) : M unit :=
  fun s => (Returned tt,
            {| dataset := dataset s; callbacks := c; trace := trace s |}).

Definition when (b : bool) (m : M unit) : M unit := if b then m else ret tt.

Declare Scope py_scope.
Delimit Scope py_scope with py.
Notation "x <- m ;; k" := (bind m (fun x => k))
  (at level 61, m at next level, right associativity) : py_scope.
Notation "m ;; k" := (bind m (fun _ => k))
  (at level 61, right associativity) : py_scope.
Local Open Scope py_scope.

Definition len {A} (l : list A) : Z := Z.of_nat (List.length l).

Definition string_of (o : option string) : string :=
  match o with Some s => s | None => "" end.

Definition is_str (o : option string) (s : string) : bool :=
  match o with Some x => (x =? s)%string | None => false end.

Definition append_callback (c : Callback) : M unit :=
  cbs <- read_callbacks;; write_callbacks (cbs ++ [c])%list.

(** *** [change_input_size], [save_quantized_model], [QuantizeModelCheckpoint] *)

(** Lines 34-41; [ch] defaults to 3 at the only call. *)
Definition change_input_size (model : Saveable) (h w ch : Z) : Saveable :=
  Resized model h w ch.

(** Lines 44-62.  The function reads the global [args]. *)
Definition save_quantized_model (a : args.t) (model : Model) (log_dir : string)
    (epoch : fvalue) : M unit :=
  emit (Makedirs log_dir);;
  let model2save :=
    SubModel model "image_input" ["quant_predict_conv_1"; "quant_predict_conv_2"] in
  let model2save :=
    change_input_size model2save
      (fst a.(args.model_input_shape)) (snd a.(args.model_input_shape)) 3 in
  emit (SaveModel model2save
          (path_join log_dir ("trained_" ++ format epoch ++ ".h5")%string));;
  emit (WriteTflite model2save
          (path_join log_dir ("trained_" ++ format epoch ++ "_uint8.tflite")%string)).

(** Lines 65-71: the counter of the checkpoint after the call. *)
Definition QuantizeModelCheckpoint_on_epoch_end (a : args.t) (model : Model)
    (epochs_since_last_save epoch : Z) : M Z :=
  let epochs_since_last_save := epochs_since_last_save + 1 in
  let log_dir := "logs/quant" in
  save_quantized_model a model log_dir (FInt epoch);;
  ret epochs_since_last_save.

(** *** The blocks of [main] *)

(** Lines 82-89: the freeze level of the transfer stage. *)
Definition get_freeze_level (a : args.t) : Z :=
  let freeze_level := if truthy a.(args.weights_path) then 0 else 1 in
  match a.(args.freeze_level) with
  | Some l => l
  | None => freeze_level
  end.

(** Lines 113-116: the callback list. *)
Definition make_callbacks (a : args.t) : M unit :=
  write_callbacks
    [logging; checkpoint; reduce_lr; early_stopping; terminate_on_nan; checkpoint_clean];;
  when a.(args.quantize_aware_training) (append_callback checkpoint_q).

(** Lines 119-128: the annotation list and the sizes of its two parts. *)
Definition split_dataset (env : Env) (a : args.t) : M (Z * Z) :=
  write_dataset (env.(get_dataset) a.(args.annotation_file));;
  if truthy a.(args.val_annotation_file) then
    let val_dataset := env.(get_dataset) (string_of a.(args.val_annotation_file)) in
    dataset <- read_dataset;;
    let num_train := len dataset in
    let num_val := len val_dataset in
    write_dataset (dataset ++ val_dataset)%list;;
    ret (num_train, num_val)
  else
    let val_split := a.(args.val_split) in
    dataset <- read_dataset;;
    x <- lift (int_mul_float (len dataset) val_split);;
    num_val <- lift (int_of_float x);;
    let num_train := len dataset - num_val in
    ret (num_train, num_val).

(** Lines 131-134. *)
Definition get_rescale_interval (a : args.t) : Z :=
  if a.(args.multiscale) then a.(args.rescale_interval) else -1.

(** Lines 137-138: the assertion on the input shape. *)
Definition check_input_shape (input_shape : Z * Z) : result unit :=
  if (fst input_shape mod 32 =? 0) && (snd input_shape mod 32 =? 0)
  then Returned tt
  else Raised (AssertionError "model_input_shape should be multiples of 32").

(** The three variables the dispatch of lines 141-186 assigns. *)
Record Selection : Type := {
  sel_get_train_model : TrainModelFn;
  sel_data_generator : GeneratorFn;
  sel_tiny_version : bool }.

(** Lines 141-186: the dispatch on the model type. *)
Definition select_model (a : args.t) : result Selection :=
  let model_type := a.(args.model_type) in
  if startswith model_type "scaled_yolo4_" || startswith model_type "yolo5_" then
    Returned {| sel_get_train_model := get_yolo5_train_model;
                sel_data_generator := yolo5_data_generator_wrapper;
                sel_tiny_version := false |}
  else if startswith model_type "yolo3_" || startswith model_type "yolo4_" then
    Returned {| sel_get_train_model := get_yolo3_train_model;
                sel_data_generator := yolo3_data_generator_wrapper;
                sel_tiny_version := false |}
  else if startswith model_type "tiny_yolo3_" || startswith model_type "tiny_yolo4_" then
    Returned {| sel_get_train_model := get_yolo3_train_model;
                sel_data_generator := yolo3_data_generator_wrapper;
                sel_tiny_version := true |}
  else if startswith model_type "yolo2_" || startswith model_type "tiny_yolo2_" then
    Returned {| sel_get_train_model := get_yolo2_train_model;
                sel_data_generator := yolo2_data_generator_wrapper;
                sel_tiny_version := false |}
  else Raised (ValueError "Unsupported model type").

(** [model.layers[i].trainable = True]. *)
Definition set_trainable (ls : list Layer) (i : nat) : result (list Layer) :=
  match getitem ls i with
  | Raised e => Raised e
  | Returned l =>
      Returned (firstn i ls
                ++ {| layer_name := layer_name l; trainable := true |}
                :: skipn (S i) ls)%list
  end.

(** The loop of lines 276-277 and 281-282 over the indices [idx]. *)
Fixpoint unfreeze_loop (idx : list nat) (ls : list Layer) : result (list Layer) :=
  match idx with
  | [] => Returned ls
  | i :: idx' =>
      match set_trainable ls i with
      | Raised e => Raised e
      | Returned ls' => unfreeze_loop idx' ls'
      end
  end.

Definition unfreeze (model : Model) : result (list Layer) :=
  unfreeze_loop (range (len (layers model))) (layers model).

(** A [fit_generator] call returning: the call is recorded, the shuffle
    callback, when it is in the list, has worked on the annotation list it
    shares with [main], and the model is the trained one. *)
Definition run_fit (env : Env) (model : Model) (c : FitCall) : M Model :=
  emit (CallFit model c);;
  when (existsb (same_callback shuffle_callback) (fit_callbacks c))
       (d <- read_dataset;; write_dataset (env.(shuffled) c d));;
  ret (env.(fit_generator) model c).

(** Lines 245-268: the optimizer and callbacks of the second stage. *)
Definition rebuild_optimizer (a : args.t) (optimizer : Optimizer) (num_train : Z)
  : M Optimizer :=
  if truthy a.(args.decay_type) || truthy a.(args.average_type) then
    when (truthy a.(args.decay_type))
         (cbs <- read_callbacks;;
          cbs <- lift (remove same_callback cbs reduce_lr);;
          write_callbacks cbs);;
    when (is_str a.(args.average_type) "ema" || is_str a.(args.average_type) "swa")
         (cbs <- read_callbacks;;
          cbs <- lift (remove same_callback cbs checkpoint);;
          write_callbacks (insert cbs (-1) avg_checkpoint));;
    q <- lift (floordiv num_train a.(args.batch_size));;
    let steps_per_epoch := Z.max 1 q in
    let decay_steps :=
      steps_per_epoch
      * (a.(args.total_epoch) - a.(args.init_epoch) - a.(args.transfer_epoch)) in
    let optimizer :=
      get_optimizer a.(args.optimizer) a.(args.learning_rate)
                    a.(args.average_type) a.(args.decay_type) (Some decay_steps) in
    emit (CallGetOptimizer optimizer);;
    ret optimizer
  else ret optimizer.

(** Lines 300-307: the final model is stored. *)
Definition store_model (env : Env) (a : args.t) (model : Model) (log_dir : string)
  : M unit :=
  model <- (if a.(args.model_pruning)
            then emit (StripPruning model);; ret (env.(strip_pruning) model)
            else ret model);;
  if a.(args.quantize_aware_training)
  then save_quantized_model a model log_dir (FStr "last")
  else emit (SaveModel (TrainModel model) (path_join log_dir "trained_final.h5")).

(** *** [main] (lines 74-307) *)

Definition main (env : Env) (a : args.t) : M unit :=
  let log_dir := path_join "logs" "000" in
  let class_names := env.(get_classes) a.(args.classes_path) in
  let num_classes := len class_names in
  let anchors := env.(get_anchors) a.(args.anchors_path) in
  let num_anchors := len anchors in
  let freeze_level := get_freeze_level a in
  make_callbacks a;;
  nums <- split_dataset env a;;
  let num_train := fst nums in
  let num_val := snd nums in
  let rescale_interval := get_rescale_interval a in
  let input_shape := a.(args.model_input_shape) in
  lift (check_input_shape input_shape);;
  sel <- lift (select_model a);;
  let get_train_model_fn := sel_get_train_model sel in
  let data_generator := sel_data_generator sel in
  (* online evaluation callback, added before the last element *)
  when a.(args.eval_online)
       (cbs <- read_callbacks;; write_callbacks (insert cbs (-1) eval_callback));;
  when a.(args.data_shuffle) (append_callback shuffle_callback);;
  (* pruning configuration *)
  x <- lift (float_mul_int 1.0%float num_train);;
  x <- lift (float_div_int x a.(args.batch_size));;
  let pruning_end_step := env.(np_ceil_int32_times) x a.(args.total_epoch) in
  when a.(args.model_pruning)
       (cbs <- read_callbacks;;
        write_callbacks (cbs ++ [update_pruning_step; pruning_summaries])%list);;
  let optimizer :=
    get_optimizer a.(args.optimizer) a.(args.learning_rate) None None None in
  emit (CallGetOptimizer optimizer);;
  (* multi-GPU support *)
  built <-
    (if 2 <=? a.(args.gpu_num) then
       let devices_list :=
         map (fun n => ("/gpu:" ++ str_of_int (Z.of_nat n))%string)
             (range a.(args.gpu_num)) in
       emit (MirroredStrategy devices_list);;
       let strategy := Some devices_list in
       let call :=
         {| tm_model_type := a.(args.model_type);
            tm_anchors := anchors;
            tm_num_classes := num_classes;
            tm_quantize_aware_training := a.(args.quantize_aware_training);
            tm_weights_path := a.(args.weights_path);
            tm_freeze_level := freeze_level;
            tm_optimizer := optimizer;
            tm_label_smoothing := a.(args.label_smoothing);
            tm_elim_grid_sense := a.(args.elim_grid_sense);
            tm_model_pruning := a.(args.model_pruning);
            tm_pruning_end_step := pruning_end_step |} in
       emit (CallGetTrainModel strategy get_train_model_fn call);;
       ret (strategy, env.(get_train_model) get_train_model_fn call)
     else
       let call :=
         {| tm_model_type := a.(args.model_type);
            tm_anchors := anchors;
            tm_num_classes := num_classes;
            tm_quantize_aware_training := a.(args.quantize_aware_training);
            tm_weights_path := a.(args.weights_path);
            tm_freeze_level := freeze_level;
            tm_optimizer := optimizer;
            tm_label_smoothing := a.(args.label_smoothing);
            tm_elim_grid_sense := a.(args.elim_grid_sense);
            tm_model_pruning := a.(args.model_pruning);
            tm_pruning_end_step := pruning_end_step |} in
       emit (CallGetTrainModel None get_train_model_fn call);;
       ret (None, env.(get_train_model) get_train_model_fn call));;
  let strategy : option Strategy := fst built in
  let model := snd built in
  (* transfer stage, with frozen layers *)
  let initial_epoch := a.(args.init_epoch) in
  let epochs := initial_epoch + a.(args.transfer_epoch) in
  dataset <- read_dataset;;
  let train_generator :=
    {| gen_fn := data_generator;
       gen_annotation_lines := slice_to dataset num_train;
       gen_batch_size := a.(args.batch_size);
       gen_input_shape := input_shape;
       gen_anchors := anchors;
       gen_num_classes := num_classes;
       gen_enhance_augment := Some a.(args.enhance_augment);
       gen_rescale_interval := Some rescale_interval;
       gen_multi_anchor_assign := a.(args.multi_anchor_assign) |} in
  q_train <- lift (floordiv num_train a.(args.batch_size));;
  dataset <- read_dataset;;
  let val_generator :=
    {| gen_fn := data_generator;
       gen_annotation_lines := slice_from dataset num_train;
       gen_batch_size := a.(args.batch_size);
       gen_input_shape := input_shape;
       gen_anchors := anchors;
       gen_num_classes := num_classes;
       gen_enhance_augment := None;
       gen_rescale_interval := None;
       gen_multi_anchor_assign := a.(args.multi_anchor_assign) |} in
  q_val <- lift (floordiv num_val a.(args.batch_size));;
  cbs <- read_callbacks;;
  model <- run_fit env model
             {| fit_generator_arg := train_generator;
                fit_steps_per_epoch := Z.max 1 q_train;
                fit_validation_data := val_generator;
                fit_validation_steps := Z.max 1 q_val;
                fit_epochs := epochs;
                fit_initial_epoch := initial_epoch;
                fit_workers := 1;
                fit_use_multiprocessing := false;
                fit_max_queue_size := 10;
                fit_callbacks := cbs |};;
  emit (Sleep 2);;
  optimizer <- rebuild_optimizer a optimizer num_train;;
  (* unfreeze the whole network and recompile *)
  model <-
    (if 2 <=? a.(args.gpu_num) then
       ls <- lift (unfreeze model);;
       emit (Compile strategy optimizer);;
       ret {| layers := ls; compiled_with := optimizer |}
     else
       ls <- lift (unfreeze model);;
       emit (Compile None optimizer);;
       ret {| layers := ls; compiled_with := optimizer |});;
  (* fine-tune stage *)
  dataset <- read_dataset;;
  let train_generator :=
    {| gen_fn := data_generator;
       gen_annotation_lines := slice_to dataset num_train;
       gen_batch_size := a.(args.batch_size);
       gen_input_shape := input_shape;
       gen_anchors := anchors;
       gen_num_classes := num_classes;
       gen_enhance_augment := Some a.(args.enhance_augment);
       gen_rescale_interval := Some rescale_interval;
       gen_multi_anchor_assign := a.(args.multi_anchor_assign) |} in
  q_train <- lift (floordiv num_train a.(args.batch_size));;
  dataset <- read_dataset;;
  let val_generator :=
    {| gen_fn := data_generator;
       gen_annotation_lines := slice_from dataset num_train;
       gen_batch_size := a.(args.batch_size);
       gen_input_shape := input_shape;
       gen_anchors := anchors;
       gen_num_classes := num_classes;
       gen_enhance_augment := None;
       gen_rescale_interval := None;
       gen_multi_anchor_assign := a.(args.multi_anchor_assign) |} in
  q_val <- lift (floordiv num_val a.(args.batch_size));;
  cbs <- read_callbacks;;
  model <- run_fit env model
             {| fit_generator_arg := train_generator;
                fit_steps_per_epoch := Z.max 1 q_train;
                fit_validation_data := val_generator;
                fit_validation_steps := Z.max 1 q_val;
                fit_epochs := a.(args.total_epoch);
                fit_initial_epoch := epochs;
                fit_workers := 1;
                fit_use_multiprocessing := false;
                fit_max_queue_size := 10;
                fit_callbacks := cbs |};;
  (* finally store the model *)
  store_model env a model log_dir.

(** The script run from a fresh state: its outcome and the calls made. *)
Definition run (env : Env) (a : args.t) : result unit * list Event :=
  let r := main env a initial_state in (fst r, trace (snd r)).

(** *** Sample inputs *)

(** The defaults of the argument parser (lines 312-380). *)
Definition default_args : args.t :=
  {| args.model_type := "yolo3_mobilenet_lite";
     args.anchors_path := "configs/yolo3_anchors.txt";
     args.model_input_shape := (416, 416);
     args.weights_path := None;
     args.annotation_file := "trainval.txt";
     args.val_annotation_file := None;
     args.val_split := 0.1%float;
     args.classes_path := "configs/voc_classes.txt";
     args.batch_size := 16;
     args.optimizer := "adam";
     args.learning_rate := 1e-3%float;
     args.average_type := None;
     args.decay_type := None;
     args.transfer_epoch := 20;
     args.freeze_level := None;
     args.init_epoch := 0;
     args.total_epoch := 250;
     args.multiscale := false;
     args.rescale_interval := 10;
     args.enhance_augment := None;
     args.label_smoothing := 0%float;
     args.multi_anchor_assign := false;
     args.elim_grid_sense := false;
     args.data_shuffle := false;
     args.gpu_num := 1;
     args.model_pruning := false;
     args.quantize_aware_training := false;
     args.eval_online := false;
     args.eval_epoch_interval := 10;
     args.save_eval_checkpoint := false |}.

(** One option changed, the others kept. *)
Definition with_model_type (v : string) (a : args.t) : args.t :=
  let 'args.Build_t
        mt ap sh wp af vf vs cp bs op lr av dt te fl ie tot ms ri ea ls maa egs ds gn
        mp qat eo eei sec := a in
  args.Build_t
    v ap sh wp af vf vs cp bs op lr av dt te fl ie tot ms ri ea ls maa egs ds gn mp qat
    eo eei sec.

Definition with_model_input_shape (v : Z * Z) (a : args.t) : args.t :=
  let 'args.Build_t
        mt ap sh wp af vf vs cp bs op lr av dt te fl ie tot ms ri ea ls maa egs ds gn
        mp qat eo eei sec := a in
  args.Build_t
    mt ap v wp af vf vs cp bs op lr av dt te fl ie tot ms ri ea ls maa egs ds gn mp qat
    eo eei sec.

Definition with_weights_path (v : option string) (a : args.t) : args.t :=
  let 'args.Build_t
        mt ap sh wp af vf vs cp bs op lr av dt te fl ie tot ms ri ea ls maa egs ds gn
        mp qat eo eei sec := a in
  args.Build_t
    mt ap sh v af vf vs cp bs op lr av dt te fl ie tot ms ri ea ls maa egs ds gn mp qat
    eo eei sec.

Definition with_val_annotation_file (v : option string) (a : args.t) : args.t :=
  let 'args.Build_t
        mt ap sh wp af vf vs cp bs op lr av dt te fl ie tot ms ri ea ls maa egs ds gn
        mp qat eo eei sec := a in
  args.Build_t
    mt ap sh wp af v vs cp bs op lr av dt te fl ie tot ms ri ea ls maa egs ds gn mp qat
    eo eei sec.

Definition with_val_split (v : float) (a : args.t) : args.t :=
  let 'args.Build_t
        mt ap sh wp af vf vs cp bs op lr av dt te fl ie tot ms ri ea ls maa egs ds gn
        mp qat eo eei sec := a in
  args.Build_t
    mt ap sh wp af vf v cp bs op lr av dt te fl ie tot ms ri ea ls maa egs ds gn mp qat
    eo eei sec.

Definition with_batch_size (v : Z) (a : args.t) : args.t :=
  let 'args.Build_t
        mt ap sh wp af vf vs cp bs op lr av dt te fl ie tot ms ri ea ls maa egs ds gn
        mp qat eo eei sec := a in
  args.Build_t
    mt ap sh wp af vf vs cp v op lr av dt te fl ie tot ms ri ea ls maa egs ds gn mp qat
    eo eei sec.

Definition with_average_type (v : option string) (a : args.t) : args.t :=
  let 'args.Build_t
        mt ap sh wp af vf vs cp bs op lr av dt te fl ie tot ms ri ea ls maa egs ds gn
        mp qat eo eei sec := a in
  args.Build_t
    mt ap sh wp af vf vs cp bs op lr v dt te fl ie tot ms ri ea ls maa egs ds gn mp qat
    eo eei sec.

Definition with_decay_type (v : option string) (a : args.t) : args.t :=
  let 'args.Build_t
        mt ap sh wp af vf vs cp bs op lr av dt te fl ie tot ms ri ea ls maa egs ds gn
        mp qat eo eei sec := a in
  args.Build_t
    mt ap sh wp af vf vs cp bs op lr av v te fl ie tot ms ri ea ls maa egs ds gn mp qat
    eo eei sec.

Definition with_transfer_epoch (v : Z) (a : args.t) : args.t :=
  let 'args.Build_t
        mt ap sh wp af vf vs cp bs op lr av dt te fl ie tot ms ri ea ls maa egs ds gn
        mp qat eo eei sec := a in
  args.Build_t
    mt ap sh wp af vf vs cp bs op lr av dt v fl ie tot ms ri ea ls maa egs ds gn mp qat
    eo eei sec.

Definition with_freeze_level (v : option Z) (a : args.t) : args.t :=
  let 'args.Build_t
        mt ap sh wp af vf vs cp bs op lr av dt te fl ie tot ms ri ea ls maa egs ds gn
        mp qat eo eei sec := a in
  args.Build_t
    mt ap sh wp af vf vs cp bs op lr av dt te v ie tot ms ri ea ls maa egs ds gn mp qat
    eo eei sec.

Definition with_total_epoch (v : Z) (a : args.t) : args.t :=
  let 'args.Build_t
        mt ap sh wp af vf vs cp bs op lr av dt te fl ie tot ms ri ea ls maa egs ds gn
        mp qat eo eei sec := a in
  args.Build_t
    mt ap sh wp af vf vs cp bs op lr av dt te fl ie v ms ri ea ls maa egs ds gn mp qat
    eo eei sec.

Definition with_data_shuffle (v : bool) (a : args.t) : args.t :=
  let 'args.Build_t
        mt ap sh wp af vf vs cp bs op lr av dt te fl ie tot ms ri ea ls maa egs ds gn
        mp qat eo eei sec := a in
  args.Build_t
    mt ap sh wp af vf vs cp bs op lr av dt te fl ie tot ms ri ea ls maa egs v gn mp qat
    eo eei sec.

Definition with_gpu_num (v : Z) (a : args.t) : args.t :=
  let 'args.Build_t
        mt ap sh wp af vf vs cp bs op lr av dt te fl ie tot ms ri ea ls maa egs ds gn
        mp qat eo eei sec := a in
  args.Build_t
    mt ap sh wp af vf vs cp bs op lr av dt te fl ie tot ms ri ea ls maa egs ds v mp qat
    eo eei sec.

Definition with_model_pruning (v : bool) (a : args.t) : args.t :=
  let 'args.Build_t
        mt ap sh wp af vf vs cp bs op lr av dt te fl ie tot ms ri ea ls maa egs ds gn
        mp qat eo eei sec := a in
  args.Build_t
    mt ap sh wp af vf vs cp bs op lr av dt te fl ie tot ms ri ea ls maa egs ds gn v qat
    eo eei sec.

Definition with_quantize_aware_training (v : bool) (a : args.t) : args.t :=
  let 'args.Build_t
        mt ap sh wp af vf vs cp bs op lr av dt te fl ie tot ms ri ea ls maa egs ds gn
        mp qat eo eei sec := a in
  args.Build_t
    mt ap sh wp af vf vs cp bs op lr av dt te fl ie tot ms ri ea ls maa egs ds gn mp v
    eo eei sec.

Definition with_eval_online (v : bool) (a : args.t) : args.t :=
  let 'args.Build_t
        mt ap sh wp af vf vs cp bs op lr av dt te fl ie tot ms ri ea ls maa egs ds gn
        mp qat eo eei sec := a in
  args.Build_t
    mt ap sh wp af vf vs cp bs op lr av dt te fl ie tot ms ri ea ls maa egs ds gn mp
    qat v eei sec.

(** *** The script (lines 382-386) *)

(** Lines 383-384: the text of [--model_input_shape] becomes a pair of
    integers. *)
Definition parse_model_input_shape (model_input_shape : string) : result (Z * Z) :=
  match unpack2 (str_split "x" model_input_shape) with
  | Raised e => Raised e
  | Returned (height, width) =>
      match int_of_str height with
      | Raised e => Raised e
      | Returned h =>
          match int_of_str width with
          | Raised e => Raised e
          | Returned w => Returned (h, w)
          end
      end
  end.

(** Lines 383-386.  [a] holds the parsed options other than the input
    shape, whose text is [model_input_shape]. *)
Definition script (env : Env) (a : args.t) (model_input_shape : string) : M unit :=
  shape <- lift (parse_model_input_shape model_input_shape);;
  main env (with_model_input_shape shape a).

Definition run_script (env : Env) (a : args.t) (model_input_shape : string)
  : result unit * list Event :=
  let r := script env a model_input_shape initial_state in (fst r, trace (snd r)).

(** A small world to run the script in: forty training lines in
    [trainval.txt], three validation lines in [val.txt], a model of three
    layers of which the first two are frozen unless the freeze level is 0,
    a fit that leaves the model as it is and a shuffle that reverses the
    list. *)
Definition sample_lines (prefix : string) (n : nat) : list string :=
  map (fun i => (prefix ++ str_of_int (Z.of_nat i) ++ ".jpg 10,20,110,220,0")%string)
      (seq 0 n).

Definition sample_env : Env :=
  {| get_classes := fun _ => ["person"; "car"];
     get_anchors := fun _ => [(10, 13); (16, 30); (33, 23)]%float;
     get_dataset := fun f =>
       if (f =? "trainval.txt")%string then sample_lines "train" 40
       else if (f =? "val.txt")%string then sample_lines "val" 3
       else [];
     np_ceil_int32_times := fun x k =>
       match floor_of_float (PrimFloat.opp x) with
       | Returned n => (- n) * k
       | Raised _ => 0
       end;
     get_train_model := fun _ c =>
       {| layers := [ {| layer_name := "image_input";
                         trainable := tm_freeze_level c =? 0 |};
                      {| layer_name := "backbone"; trainable := tm_freeze_level c =? 0 |};
                      {| layer_name := "yolo_loss"; trainable := true |} ];
          compiled_with := tm_optimizer c |};
     fit_generator := fun m _ => m;
     shuffled := fun _ d => rev d;
     strip_pruning := fun m => m |}.

(** *** Observations *)

(** [num_train] and [num_val] as lines 119-128 leave them, or the
    exception the block raises. *)
Definition split_sizes (env : Env) (a : args.t) : result (Z * Z) :=
  fst (split_dataset env a initial_state).

(** The annotation list as lines 119-128 leave it. *)
Definition annotation_lines (env : Env) (a : args.t) : list string :=
  dataset (snd (split_dataset env a initial_state)).

(** The [fit_generator] calls of a trace, in order. *)
Fixpoint fit_calls (tr : list Event) : list (Model * FitCall) :=
  match tr with
  | [] => []
  | CallFit m c :: tr' => (m, c) :: fit_calls tr'
  | _ :: tr' => fit_calls tr'
  end.

(** The model constructor calls of a trace, in order. *)
Fixpoint model_calls (tr : list Event)
  : list (option Strategy * TrainModelFn * TrainModelCall) :=
  match tr with
  | [] => []
  | CallGetTrainModel sc fn c :: tr' => (sc, fn, c) :: model_calls tr'
  | _ :: tr' => model_calls tr'
  end.

(** The epoch indices a [fit_generator] call with the given
    [initial_epoch] and [epochs] runs when nothing stops it early: the
    framework counts from [initial_epoch] up to [epochs - 1]. *)
Definition epochs_run (initial_epoch epochs : Z) : list Z :=
  map (fun k => initial_epoch + Z.of_nat k) (seq 0 (Z.to_nat (epochs - initial_epoch))).

Definition epochs_of (c : FitCall) : list Z :=
  epochs_run (fit_initial_epoch c) (fit_epochs c).

(** A layer once the loop of lines 276-277 has visited it. *)
Definition unfrozen (l : Layer) : Layer :=
  {| layer_name := layer_name l; trainable := true |}.

(** [l] without the first occurrence of [x], when there is one. *)
Definition without (l : list Callback) (x : Callback) : list Callback :=
  match remove same_callback l x with
  | Returned r => r
  | Raised _ => l
  end.

(** The callback list as the first [fit_generator] call receives it
    (lines 113-116, 189-196 and 200-202 taken together). *)
Definition callbacks_stage1 (a : args.t) : list Callback :=
  let l := ([logging; checkpoint; reduce_lr; early_stopping; terminate_on_nan;
             checkpoint_clean]
            ++ (if a.(args.quantize_aware_training) then [checkpoint_q] else []))%list in
  let l := if a.(args.eval_online) then insert l (-1) eval_callback else l in
  let l := if a.(args.data_shuffle) then (l ++ [shuffle_callback])%list else l in
  if a.(args.model_pruning)
  then (l ++ [update_pruning_step; pruning_summaries])%list else l.

(** The callback list as the second call receives it (lines 248-264). *)
Definition callbacks_stage2 (a : args.t) : list Callback :=
  let l := callbacks_stage1 a in
  let l := if truthy a.(args.decay_type) then without l reduce_lr else l in
  if is_str a.(args.average_type) "ema" || is_str a.(args.average_type) "swa"
  then insert (without l checkpoint) (-1) avg_checkpoint
  else l.

(** Whether lines 245-268 rebuild the optimizer. *)
Definition rebuilds (a : args.t) : bool :=
  truthy a.(args.decay_type) || truthy a.(args.average_type).

(** The device names of line 210. *)
Definition devices_list (a : args.t) : list string :=
  map (fun n => ("/gpu:" ++ str_of_int (Z.of_nat n))%string) (range a.(args.gpu_num)).

(** The paths of the files a trace writes, in order. *)
Fixpoint written_paths (tr : list Event) : list string :=
  match tr with
  | [] => []
  | SaveModel _ p :: tr' => p :: written_paths tr'
  | WriteTflite _ p :: tr' => p :: written_paths tr'
  | _ :: tr' => written_paths tr'
  end.

(** The calls one [on_epoch_end] of the quantized checkpoint makes. *)
Definition epoch_end_trace (a : args.t) (model : Model) (epochs_since_last_save epoch : Z)
  : list Event :=
  trace (snd (QuantizeModelCheckpoint_on_epoch_end a model epochs_since_last_save epoch
                initial_state)).

(** The characters [str] writes an integer with, the decimal digits among
    them, and the characters of a number [int] reads. *)
Definition decimal_digits : list ascii := list_ascii_of_string "0123456789".

Definition literal_chars : list ascii := list_ascii_of_string "0123456789-".

Definition number_chars : list ascii := list_ascii_of_string "0123456789_+-".

(** *** A run that returns, in closed form

    The calls [main] makes when nothing raises, written out from the values
    its first lines compute: the sizes [nt] and [nv] of the two parts of the
    annotation list, the selection [sel] of the dispatch and the quotient
    [q] of line 199.  Lemma [run_returns] proves that this is the trace of
    [main]. *)
Section ClosedForm.

Variables (env : Env) (a : args.t) (nt nv : Z) (sel : Selection) (q : float).

Definition first_optimizer : Optimizer :=
  get_optimizer a.(args.optimizer) a.(args.learning_rate) None None None.

Definition strategy_scope : option Strategy :=
  if 2 <=? a.(args.gpu_num) then Some (devices_list a) else None.

Definition model_call : TrainModelCall :=
  {| tm_model_type := a.(args.model_type);
     tm_anchors := env.(get_anchors) a.(args.anchors_path);
     tm_num_classes := len (env.(get_classes) a.(args.classes_path));
     tm_quantize_aware_training := a.(args.quantize_aware_training);
     tm_weights_path := a.(args.weights_path);
     tm_freeze_level := get_freeze_level a;
     tm_optimizer := first_optimizer;
     tm_label_smoothing := a.(args.label_smoothing);
     tm_elim_grid_sense := a.(args.elim_grid_sense);
     tm_model_pruning := a.(args.model_pruning);
     tm_pruning_end_step := env.(np_ceil_int32_times) q a.(args.total_epoch) |}.

Definition built_model : Model :=
  env.(get_train_model) (sel_get_train_model sel) model_call.

Definition fit_call (d : list string) (initial_epoch epochs : Z)
    (cbs : list Callback) : FitCall :=
  {| fit_generator_arg :=
       {| gen_fn := sel_data_generator sel;
          gen_annotation_lines := slice_to d nt;
          gen_batch_size := a.(args.batch_size);
          gen_input_shape := a.(args.model_input_shape);
          gen_anchors := env.(get_anchors) a.(args.anchors_path);
          gen_num_classes := len (env.(get_classes) a.(args.classes_path));
          gen_enhance_augment := Some a.(args.enhance_augment);
          gen_rescale_interval := Some (get_rescale_interval a);
          gen_multi_anchor_assign := a.(args.multi_anchor_assign) |};
     fit_steps_per_epoch := Z.max 1 (nt / a.(args.batch_size));
     fit_validation_data :=
       {| gen_fn := sel_data_generator sel;
          gen_annotation_lines := slice_from d nt;
          gen_batch_size := a.(args.batch_size);
          gen_input_shape := a.(args.model_input_shape);
          gen_anchors := env.(get_anchors) a.(args.anchors_path);
          gen_num_classes := len (env.(get_classes) a.(args.classes_path));
          gen_enhance_augment := None;
          gen_rescale_interval := None;
          gen_multi_anchor_assign := a.(args.multi_anchor_assign) |};
     fit_validation_steps := Z.max 1 (nv / a.(args.batch_size));
     fit_epochs := epochs;
     fit_initial_epoch := initial_epoch;
     fit_workers := 1;
     fit_use_multiprocessing := false;
     fit_max_queue_size := 10;
     fit_callbacks := cbs |}.

Definition transfer_fit : FitCall :=
  fit_call (annotation_lines env a) a.(args.init_epoch)
           (a.(args.init_epoch) + a.(args.transfer_epoch)) (callbacks_stage1 a).

Definition transferred_model : Model := env.(fit_generator) built_model transfer_fit.

Definition lines_after_transfer : list string :=
  if a.(args.data_shuffle)
  then env.(shuffled) transfer_fit (annotation_lines env a)
  else annotation_lines env a.

Definition second_optimizer : Optimizer :=
  if rebuilds a
  then get_optimizer a.(args.optimizer) a.(args.learning_rate)
         a.(args.average_type) a.(args.decay_type)
         (Some (Z.max 1 (nt / a.(args.batch_size))
                * (a.(args.total_epoch) - a.(args.init_epoch)
                   - a.(args.transfer_epoch))))
  else first_optimizer.

Definition unfrozen_model : Model :=
  {| layers := map unfrozen (layers transferred_model);
     compiled_with := second_optimizer |}.

Definition fine_tune_fit : FitCall :=
  fit_call lines_after_transfer (a.(args.init_epoch) + a.(args.transfer_epoch))
           a.(args.total_epoch) (callbacks_stage2 a).

Definition tuned_model : Model := env.(fit_generator) unfrozen_model fine_tune_fit.

Definition stored_model : Model :=
  if a.(args.model_pruning) then env.(strip_pruning) tuned_model else tuned_model.

Definition quantized_model : Saveable :=
  Resized (SubModel stored_model "image_input"
                    ["quant_predict_conv_1"; "quant_predict_conv_2"])
          (fst a.(args.model_input_shape)) (snd a.(args.model_input_shape)) 3.

Definition store_events : list Event :=
  ((if a.(args.model_pruning) then [StripPruning tuned_model] else [])
   ++ (if a.(args.quantize_aware_training)
       then [Makedirs "logs/000";
             SaveModel quantized_model "logs/000/trained_last.h5";
             WriteTflite quantized_model "logs/000/trained_last_uint8.tflite"]
       else [SaveModel (TrainModel stored_model) "logs/000/trained_final.h5"]))%list.

Definition build_events : list Event :=
  ([CallGetOptimizer first_optimizer]
   ++ (if 2 <=? a.(args.gpu_num) then [MirroredStrategy (devices_list a)] else [])
   ++ [CallGetTrainModel strategy_scope (sel_get_train_model sel) model_call])%list.

Definition rebuild_events : list Event :=
  if rebuilds a then [CallGetOptimizer second_optimizer] else [].

Definition expected_trace : list Event :=
  (build_events
   ++ CallFit built_model transfer_fit :: Sleep 2 :: rebuild_events
   ++ Compile strategy_scope second_optimizer
   :: CallFit unfrozen_model fine_tune_fit :: store_events)%list.

End ClosedForm.

(** *** The words of the specification, for comparison *)

(** The prefixes the dispatch of lines 141-174 tests, in its order. *)
Definition recognized_prefixes : list string :=
  ["scaled_yolo4_"; "yolo5_"; "yolo3_"; "yolo4_";
   "tiny_yolo3_"; "tiny_yolo4_"; "yolo2_"; "tiny_yolo2_"].

Definition recognized (model_type : string) : bool :=
  existsb (startswith model_type) recognized_prefixes.

(** The validation size worded as a floor of the product
    [len(dataset) * val_split], where line 127 applies [int]. *)
Definition floor_num_val (n : Z) (val_split : float) : result Z :=
  match int_mul_float n val_split with
  | Raised e => Raised e
  | Returned x => floor_of_float x
  end.

(** The epochs the [fit_generator] calls of a trace run, in order. *)
Definition epochs_covered (tr : list Event) : list Z :=
  flat_map (fun mc => epochs_of (snd mc)) (fit_calls tr).

(** *** Sample runs *)

(** Ten epochs in total, with the default twenty transfer epochs. *)
Definition args_short_total : args.t := with_total_epoch 10 default_args.

(** A negative validation share. *)
Definition args_negative_split : args.t := with_val_split (-0.16)%float default_args.

(** An unknown model type together with an input shape of 100x100. *)
Definition args_unknown_type_odd_shape : args.t :=
  with_model_type "resnet50_custom" (with_model_input_shape (100, 100) default_args).

(** A validation share that is not a number, with an input shape of 100x100. *)
Definition args_nan_split_odd_shape : args.t :=
  with_val_split nan (with_model_input_shape (100, 100) default_args).

(** Two GPUs. *)
Definition args_two_gpus : args.t := with_gpu_num 2 default_args.

(** Four GPUs and a separate validation file. *)
Definition args_four_gpus : args.t :=
  with_gpu_num 4 (with_val_annotation_file (Some "val.txt") default_args).

(** Pruning and quantization-aware training together. *)
Definition args_pruned_quantized : args.t :=
  with_model_pruning true (with_quantize_aware_training true default_args).

(** Cosine decay with exponential moving average, online evaluation and
    shuffling. *)
Definition args_decay_ema : args.t :=
  with_decay_type (Some "cosine")
    (with_average_type (Some "ema")
       (with_eval_online true (with_data_shuffle true default_args))).

(** Pretrained weights, no freeze level given. *)
Definition args_pretrained : args.t :=
  with_weights_path (Some "weights/yolov3.h5") default_args.

(** Online evaluation together with quantization-aware training. *)
Definition args_eval_quantized : args.t :=
  with_eval_online true (with_quantize_aware_training true default_args).

(* ------------------------------------------------------------------ *)
(** ** Properties *)

(** *** Built-ins *)

Lemma float_div_int_nonzero (x q : float) (n : Z) :
  float_div_int x n = Returned q -> n <> 0.
Proof.
  intros H ->. vm_compute in H. discriminate.
Qed.

Lemma floordiv_nonzero (a b : Z) : b <> 0 -> floordiv a b = Returned (a / b).
Proof.
  intros Hb. unfold floordiv. destruct (Z.eqb_spec b 0); [contradiction|reflexivity].
Qed.

Section ListAt.
Context {A : Type}.

Lemma nth_error_middle (pre post : list A) (x : A) :
  nth_error (pre ++ x :: post) (List.length pre) = Some x.
Proof. induction pre; cbn; auto. Qed.

Lemma firstn_middle (pre post : list A) :
  firstn (List.length pre) (pre ++ post) = pre.
Proof. induction pre; cbn; [now destruct post | now f_equal]. Qed.

Lemma skipn_middle (pre post : list A) (x : A) :
  skipn (S (List.length pre)) (pre ++ x :: post) = post.
Proof. induction pre; cbn; auto. Qed.
End ListAt.

Lemma unfreeze_loop_from (post pre : list Layer) :
  unfreeze_loop (seq (List.length pre) (List.length post)) (pre ++ post)
  = Returned (pre ++ map unfrozen post)%list.
Proof.
  revert pre. induction post as [|l post IH]; intros pre; cbn [List.length seq unfreeze_loop map].
  - reflexivity.
  - unfold set_trainable, getitem.
    rewrite nth_error_middle, firstn_middle, skipn_middle.
    specialize (IH (pre ++ [unfrozen l])%list).
    rewrite length_app, Nat.add_1_r, <- !app_assoc in IH.
    exact IH.
Qed.

Lemma unfreeze_all (m : Model) : unfreeze m = Returned (map unfrozen (layers m)).
Proof.
  unfold unfreeze, range, len. rewrite Nat2Z.id.
  exact (unfreeze_loop_from (layers m) []).
Qed.

(** The built-ins on sample values. *)
Example int_of_float_truncates : int_of_float (-6.4)%float = Returned (-6).
Proof. vm_compute. reflexivity. Qed.

Example floor_of_float_rounds_down : floor_of_float (-6.4)%float = Returned (-7).
Proof. vm_compute. reflexivity. Qed.

Example int_of_float_nan :
  int_of_float nan = Raised (ValueError "cannot convert float NaN to integer").
Proof. vm_compute. reflexivity. Qed.

Example int_mul_float_rounds : int_mul_float 10 0.7%float = Returned 7%float.
Proof. vm_compute. reflexivity. Qed.

Example float_div_int_zero :
  float_div_int 36%float 0 = Raised (ZeroDivisionError "float division by zero").
Proof. vm_compute. reflexivity. Qed.

Example floordiv_negative : floordiv (-7) 2 = Returned (-4).
Proof. reflexivity. Qed.

Example slice_to_negative : slice_to [1; 2; 3; 4; 5] (-2) = [1; 2; 3].
Proof. reflexivity. Qed.

Example slice_from_beyond : slice_from [1; 2; 3] 46 = [].
Proof. reflexivity. Qed.

Example insert_in_empty : insert ([] : list Z) (-1) 9 = [9].
Proof. reflexivity. Qed.

Example remove_first_only : remove Z.eqb [1; 2; 3; 2] 2 = Returned [1; 3; 2].
Proof. reflexivity. Qed.

Example path_join_log_dir : path_join "logs" "000" = "logs/000".
Proof. reflexivity. Qed.

Example format_epoch : ("trained_" ++ format (FInt 12) ++ ".h5")%string = "trained_12.h5".
Proof. reflexivity. Qed.

Lemma insert_before_last {A} (l : list A) (x y : A) :
  insert (l ++ [x]) (-1) y = (l ++ [y; x])%list.
Proof.
  unfold insert, clamp_index. rewrite length_app. cbn [List.length].
  destruct (Z.ltb_spec (-1) 0); [|lia].
  replace (Z.to_nat (Z.max 0 (-1 + Z.of_nat (List.length l + 1)))) with (List.length l)
    by lia.
  rewrite firstn_middle. f_equal. f_equal.
  induction l; cbn; auto.
Qed.

(** *** The blocks of [main], run from any state *)

Lemma make_callbacks_run (a : args.t) (s : State) :
  make_callbacks a s =
  (Returned tt,
   {| dataset := dataset s;
      callbacks := [logging; checkpoint; reduce_lr; early_stopping; terminate_on_nan;
                    checkpoint_clean]
                   ++ (if args.quantize_aware_training a then [checkpoint_q] else []);
      trace := trace s |}).
Proof.
  unfold make_callbacks, when, append_callback, bind, write_callbacks, read_callbacks, ret.
  destruct (args.quantize_aware_training a); reflexivity.
Qed.

Lemma split_dataset_run (env : Env) (a : args.t) (s : State) :
  split_dataset env a s =
  (split_sizes env a,
   {| dataset := annotation_lines env a; callbacks := callbacks s; trace := trace s |}).
Proof.
  unfold split_sizes, annotation_lines, split_dataset, bind, write_dataset, read_dataset,
    lift, ret.
  cbn [dataset callbacks trace initial_state fst snd].
  destruct (truthy (args.val_annotation_file a)).
  - reflexivity.
  - cbn [dataset callbacks trace fst snd].
    destruct (int_mul_float _ _) as [e|x]; [reflexivity|].
    destruct (int_of_float x); reflexivity.
Qed.

Lemma when_callbacks (b : bool) (f : list Callback -> list Callback) d c t :
  when b (bind read_callbacks (fun cbs => write_callbacks (f cbs)))
       {| dataset := d; callbacks := c; trace := t |}
  = (Returned tt, {| dataset := d; callbacks := if b then f c else c; trace := t |}).
Proof. destruct b; reflexivity. Qed.

Lemma run_fit_run (env : Env) (m : Model) (c : FitCall) d cbs t :
  run_fit env m c {| dataset := d; callbacks := cbs; trace := t |}
  = (Returned (fit_generator env m c),
     {| dataset := if existsb (same_callback shuffle_callback) (fit_callbacks c)
                   then shuffled env c d else d;
        callbacks := cbs;
        trace := t ++ [CallFit m c] |}).
Proof.
  unfold run_fit, bind, emit, when, read_dataset, write_dataset, ret.
  cbn [dataset callbacks trace].
  destruct (existsb _ _); reflexivity.
Qed.

Lemma shuffle_in_stage1 (a : args.t) :
  existsb (same_callback shuffle_callback) (callbacks_stage1 a) = args.data_shuffle a.
Proof.
  unfold callbacks_stage1.
  destruct (args.quantize_aware_training a), (args.eval_online a), (args.data_shuffle a),
    (args.model_pruning a); reflexivity.
Qed.

Lemma remove_reduce_lr (a : args.t) :
  remove same_callback (callbacks_stage1 a) reduce_lr
  = Returned (without (callbacks_stage1 a) reduce_lr).
Proof.
  unfold without, callbacks_stage1.
  destruct (args.quantize_aware_training a), (args.eval_online a), (args.data_shuffle a),
    (args.model_pruning a); reflexivity.
Qed.

Lemma remove_checkpoint (a : args.t) (b : bool) :
  let l := if b then without (callbacks_stage1 a) reduce_lr else callbacks_stage1 a in
  remove same_callback l checkpoint = Returned (without l checkpoint).
Proof.
  unfold without, callbacks_stage1.
  destruct b, (args.quantize_aware_training a), (args.eval_online a), (args.data_shuffle a),
    (args.model_pruning a); reflexivity.
Qed.

Lemma shuffle_in_stage2 (a : args.t) :
  existsb (same_callback shuffle_callback) (callbacks_stage2 a) = args.data_shuffle a.
Proof.
  unfold callbacks_stage2, without, callbacks_stage1.
  destruct (truthy (args.decay_type a)),
    (is_str (args.average_type a) "ema" || is_str (args.average_type a) "swa"),
    (args.quantize_aware_training a), (args.eval_online a), (args.data_shuffle a),
    (args.model_pruning a); reflexivity.
Qed.

Lemma is_str_truthy (o : option string) (s : string) :
  s <> "" -> is_str o s = true -> truthy o = true.
Proof.
  destruct o as [x|]; cbn; [|discriminate].
  intros Hs Hx. apply String.eqb_eq in Hx. subst x.
  destruct (String.eqb_spec s ""); [contradiction|reflexivity].
Qed.

Lemma not_averaged (o : option string) :
  truthy o = false -> is_str o "ema" || is_str o "swa" = false.
Proof.
  intros Ho.
  destruct (is_str o "ema") eqn:E1.
  - apply is_str_truthy in E1; [congruence|discriminate].
  - destruct (is_str o "swa") eqn:E2; [|reflexivity].
    apply is_str_truthy in E2; [congruence|discriminate].
Qed.

Lemma rebuild_optimizer_run (a : args.t) (nt : Z) d t :
  args.batch_size a <> 0 ->
  rebuild_optimizer a (first_optimizer a) nt
    {| dataset := d; callbacks := callbacks_stage1 a; trace := t |}
  = (Returned (second_optimizer a nt),
     {| dataset := d; callbacks := callbacks_stage2 a;
        trace := t ++ rebuild_events a nt |}).
Proof.
  intros Hbs.
  unfold rebuild_optimizer, rebuild_events, second_optimizer, rebuilds, callbacks_stage2.
  destruct (truthy (args.decay_type a)) eqn:Hd;
    destruct (truthy (args.average_type a)) eqn:Ha; cbn [orb].
  4: { rewrite (not_averaged _ Ha). unfold ret. now rewrite app_nil_r. }
  all: unfold bind, when, read_callbacks, write_callbacks, lift, emit, ret;
    cbn [dataset callbacks trace];
    try rewrite remove_reduce_lr;
    destruct (is_str (args.average_type a) "ema" || is_str (args.average_type a) "swa") eqn:Hema;
    cbn [dataset callbacks trace];
    try (rewrite (remove_checkpoint a true)); try (rewrite (remove_checkpoint a false));
    cbn [dataset callbacks trace];
    rewrite (floordiv_nonzero _ _ Hbs); reflexivity.
Qed.

Lemma store_model_run (env : Env) (a : args.t) (m : Model) d cbs t :
  store_model env a m (path_join "logs" "000") {| dataset := d; callbacks := cbs; trace := t |}
  = (Returned tt,
     {| dataset := d; callbacks := cbs;
        trace := t ++
          ((if args.model_pruning a then [StripPruning m] else [])
           ++ (let final := if args.model_pruning a then strip_pruning env m else m in
               let qm := Resized (SubModel final "image_input"
                            ["quant_predict_conv_1"; "quant_predict_conv_2"])
                          (fst (args.model_input_shape a)) (snd (args.model_input_shape a)) 3 in
               if args.quantize_aware_training a
               then [Makedirs "logs/000";
                     SaveModel qm "logs/000/trained_last.h5";
                     WriteTflite qm "logs/000/trained_last_uint8.tflite"]
               else [SaveModel (TrainModel final) "logs/000/trained_final.h5"])) |}).
Proof.
  unfold store_model, save_quantized_model, change_input_size, bind, emit, ret.
  destruct (args.model_pruning a), (args.quantize_aware_training a);
    cbn [dataset callbacks trace app]; rewrite <- ?app_assoc; reflexivity.
Qed.

Lemma run_of_main env a r s t :
  main env a initial_state = (r, s) -> trace s = t -> run env a = (r, t).
Proof. intros Hm Ht. unfold run. rewrite Hm. cbn [fst snd]. now rewrite Ht. Qed.

(** Symbolic execution of the blocks of [main]. *)
Ltac step_read_dataset :=
  unfold bind at 1; unfold read_dataset at 1; cbn [dataset callbacks trace].

Ltac step_read_callbacks :=
  unfold bind at 1; unfold read_callbacks at 1; cbn [dataset callbacks trace].

Ltac step_lift H := unfold bind at 1; unfold lift at 1; rewrite H.

Ltac step_emit :=
  unfold bind at 1; unfold emit at 1; cbn [fst snd dataset callbacks trace app].

Ltac step_div Hbs :=
  unfold bind at 1; unfold lift at 1; rewrite ?(floordiv_nonzero _ _ Hbs).

Ltac step_fit_args Hbs :=
  step_read_dataset; step_div Hbs; step_read_dataset; step_div Hbs; step_read_callbacks.

Lemma run_returns env a nt nv sel x q :
  split_sizes env a = Returned (nt, nv) ->
  check_input_shape (args.model_input_shape a) = Returned tt ->
  select_model a = Returned sel ->
  float_mul_int 1.0%float nt = Returned x ->
  float_div_int x (args.batch_size a) = Returned q ->
  run env a = (Returned tt, expected_trace env a nt nv sel q).
Proof.
  intros Hs Hc Hsel Hx Hq.
  pose proof (float_div_int_nonzero _ _ _ Hq) as Hbs.
  eapply run_of_main.
  - unfold main.
    unfold bind at 1. rewrite make_callbacks_run.
    unfold bind at 1. rewrite split_dataset_run, Hs.
    cbv zeta. cbn [fst snd dataset callbacks trace initial_state].
    step_lift Hc. step_lift Hsel.
    unfold bind at 1. rewrite when_callbacks.
    unfold bind at 1. unfold append_callback. rewrite when_callbacks.
    step_lift Hx. step_lift Hq.
    unfold bind at 1. rewrite when_callbacks.
    change (if args.model_pruning a then _ else _) with (callbacks_stage1 a).
    step_emit.
    fold (first_optimizer a). fold (model_call env a q). fold (devices_list a).
    fold (built_model env a sel q).
    unfold bind at 1.
    assert (Hbuilt :
      forall t,
        (if 2 <=? args.gpu_num a
         then
           (emit (MirroredStrategy (devices_list a));;
            emit (CallGetTrainModel (Some (devices_list a)) (sel_get_train_model sel)
                    (model_call env a q));;
            ret (Some (devices_list a), built_model env a sel q))%py
         else
           (emit (CallGetTrainModel None (sel_get_train_model sel) (model_call env a q));;
            ret (None, built_model env a sel q))%py)
          {| dataset := annotation_lines env a; callbacks := callbacks_stage1 a; trace := t |}
        = (Returned (strategy_scope a, built_model env a sel q),
           {| dataset := annotation_lines env a; callbacks := callbacks_stage1 a;
              trace := t ++ (if 2 <=? args.gpu_num a
                             then [MirroredStrategy (devices_list a)] else [])
                         ++ [CallGetTrainModel (strategy_scope a) (sel_get_train_model sel)
                               (model_call env a q)] |})).
    { intros t. unfold strategy_scope. destruct (2 <=? args.gpu_num a).
      - unfold bind, emit, ret. cbn [dataset callbacks trace]. now rewrite <- app_assoc.
      - reflexivity. }
    rewrite Hbuilt. cbn [fst snd].
    step_fit_args Hbs.
    fold (fit_call env a nt nv sel (annotation_lines env a) (args.init_epoch a)
            (args.init_epoch a + args.transfer_epoch a) (callbacks_stage1 a)).
    fold (transfer_fit env a nt nv sel).
    unfold bind at 1. rewrite run_fit_run.
    fold (transferred_model env a nt nv sel q).
    replace (fit_callbacks (transfer_fit env a nt nv sel)) with (callbacks_stage1 a)
      by reflexivity.
    rewrite shuffle_in_stage1. fold (lines_after_transfer env a nt nv sel).
    step_emit.
    unfold bind at 1. rewrite (rebuild_optimizer_run _ _ _ _ Hbs).
    assert (Hunfreeze :
      forall d cbs t,
        (if 2 <=? args.gpu_num a
         then
           (ls <- lift (unfreeze (transferred_model env a nt nv sel q));;
            emit (Compile (strategy_scope a) (second_optimizer a nt));;
            ret {| layers := ls; compiled_with := second_optimizer a nt |})%py
         else
           (ls <- lift (unfreeze (transferred_model env a nt nv sel q));;
            emit (Compile None (second_optimizer a nt));;
            ret {| layers := ls; compiled_with := second_optimizer a nt |})%py)
          {| dataset := d; callbacks := cbs; trace := t |}
        = (Returned (unfrozen_model env a nt nv sel q),
           {| dataset := d; callbacks := cbs;
              trace := t ++ [Compile (strategy_scope a) (second_optimizer a nt)] |})).
    { intros d cbs t. unfold strategy_scope, bind, lift, emit, ret.
      rewrite unfreeze_all. destruct (2 <=? args.gpu_num a); reflexivity. }
    unfold bind at 1. rewrite Hunfreeze.
    step_fit_args Hbs.
    fold (fit_call env a nt nv sel (lines_after_transfer env a nt nv sel)
            (args.init_epoch a + args.transfer_epoch a) (args.total_epoch a)
            (callbacks_stage2 a)).
    fold (fine_tune_fit env a nt nv sel).
    unfold bind at 1. rewrite run_fit_run.
    fold (tuned_model env a nt nv sel q).
    rewrite store_model_run. reflexivity.
  - cbn [trace]. cbv zeta.
    unfold expected_trace, build_events, store_events, stored_model, quantized_model.
    cbn [app]. rewrite <- !app_assoc. cbn [app]. reflexivity.
Qed.

(** The ways [main] raises: always before its first call into the framework. *)
Lemma run_cases env a :
  match split_sizes env a with
  | Raised e => run env a = (Raised e, [])
  | Returned (nt, nv) =>
      match check_input_shape (args.model_input_shape a) with
      | Raised e => run env a = (Raised e, [])
      | Returned _ =>
          match select_model a with
          | Raised e => run env a = (Raised e, [])
          | Returned sel =>
              match float_mul_int 1.0%float nt with
              | Raised e => run env a = (Raised e, [])
              | Returned x =>
                  match float_div_int x (args.batch_size a) with
                  | Raised e => run env a = (Raised e, [])
                  | Returned q =>
                      run env a = (Returned tt, expected_trace env a nt nv sel q)
                  end
              end
          end
      end
  end.
Proof.
  destruct (split_sizes env a) as [e|[nt nv]] eqn:Hs.
  { eapply run_of_main; [unfold main|].
    unfold bind at 1. rewrite make_callbacks_run.
    unfold bind at 1. rewrite split_dataset_run, Hs. reflexivity. reflexivity. }
  destruct (check_input_shape (args.model_input_shape a)) as [e|[]] eqn:Hc.
  { eapply run_of_main; [unfold main|].
    unfold bind at 1. rewrite make_callbacks_run.
    unfold bind at 1. rewrite split_dataset_run, Hs. cbv zeta.
    step_lift Hc. reflexivity. reflexivity. }
  destruct (select_model a) as [e|sel] eqn:Hsel.
  { eapply run_of_main; [unfold main|].
    unfold bind at 1. rewrite make_callbacks_run.
    unfold bind at 1. rewrite split_dataset_run, Hs. cbv zeta.
    step_lift Hc. step_lift Hsel. reflexivity. reflexivity. }
  destruct (float_mul_int 1.0%float nt) as [e|x] eqn:Hx.
  { eapply run_of_main; [unfold main|].
    unfold bind at 1. rewrite make_callbacks_run.
    unfold bind at 1. rewrite split_dataset_run, Hs. cbv zeta.
    cbn [fst snd dataset callbacks trace initial_state].
    step_lift Hc. step_lift Hsel.
    unfold bind at 1. rewrite when_callbacks.
    unfold bind at 1. unfold append_callback. rewrite when_callbacks.
    step_lift Hx. reflexivity. reflexivity. }
  destruct (float_div_int x (args.batch_size a)) as [e|q] eqn:Hq.
  { eapply run_of_main; [unfold main|].
    unfold bind at 1. rewrite make_callbacks_run.
    unfold bind at 1. rewrite split_dataset_run, Hs. cbv zeta.
    cbn [fst snd dataset callbacks trace initial_state].
    step_lift Hc. step_lift Hsel.
    unfold bind at 1. rewrite when_callbacks.
    unfold bind at 1. unfold append_callback. rewrite when_callbacks.
    step_lift Hx. step_lift Hq. reflexivity. reflexivity. }
  now apply run_returns with (x := x).
Qed.

Lemma run_returned env a :
  fst (run env a) = Returned tt ->
  exists nt nv sel x q,
    split_sizes env a = Returned (nt, nv)
    /\ check_input_shape (args.model_input_shape a) = Returned tt
    /\ select_model a = Returned sel
    /\ float_mul_int 1.0%float nt = Returned x
    /\ float_div_int x (args.batch_size a) = Returned q
    /\ snd (run env a) = expected_trace env a nt nv sel q.
Proof.
  intros H. pose proof (run_cases env a) as C.
  destruct (split_sizes env a) as [e|[nt nv]] eqn:Hs; [rewrite C in H; discriminate|].
  destruct (check_input_shape _) as [e|[]] eqn:Hc; [rewrite C in H; discriminate|].
  destruct (select_model a) as [e|sel] eqn:Hsel; [rewrite C in H; discriminate|].
  destruct (float_mul_int _ nt) as [e|x] eqn:Hx; [rewrite C in H; discriminate|].
  destruct (float_div_int x _) as [e|q] eqn:Hq; [rewrite C in H; discriminate|].
  exists nt, nv, sel, x, q. rewrite C. repeat split; assumption.
Qed.


(** The setters change the option they name and nothing else. *)
Example setters_change_one_option :
  args.total_epoch (with_total_epoch 10 default_args) = 10
  /\ args.transfer_epoch (with_total_epoch 10 default_args) = 20
  /\ args.gpu_num (with_gpu_num 4 default_args) = 4
  /\ args.batch_size (with_gpu_num 4 default_args) = 16
  /\ args.model_input_shape (with_model_input_shape (100, 100) default_args) = (100, 100)
  /\ args.model_type (with_model_type "resnet50_custom" default_args) = "resnet50_custom"
  /\ args.val_annotation_file (with_val_annotation_file (Some "val.txt") default_args)
     = Some "val.txt"
  /\ args.weights_path (with_weights_path (Some "w.h5") default_args) = Some "w.h5"
  /\ args.decay_type (with_decay_type (Some "cosine") default_args) = Some "cosine"
  /\ args.average_type (with_average_type (Some "ema") default_args) = Some "ema"
  /\ args.freeze_level (with_freeze_level (Some 2) default_args) = Some 2
  /\ args.batch_size (with_batch_size 8 default_args) = 8
  /\ args.transfer_epoch (with_transfer_epoch 5 default_args) = 5
  /\ args.model_pruning (with_model_pruning true default_args) = true
  /\ args.quantize_aware_training (with_quantize_aware_training true default_args) = true
  /\ args.eval_online (with_eval_online true default_args) = true
  /\ args.data_shuffle (with_data_shuffle true default_args) = true
  /\ with_total_epoch 250 (with_transfer_epoch 20 (with_batch_size 16 (with_gpu_num 1
       (with_model_pruning false (with_quantize_aware_training false
         (with_eval_online false (with_data_shuffle false
           (with_freeze_level None (with_weights_path None
             (with_val_annotation_file None (with_decay_type None
               (with_average_type None default_args))))))))))))
     = default_args.
Proof. repeat split. Qed.

(** Two sample runs: the defaults, and a batch size of zero. *)
Example default_run :
  fst (run sample_env default_args) = Returned tt
  /\ List.length (snd (run sample_env default_args)) = 7%nat.
Proof. split; vm_compute; reflexivity. Qed.

Example zero_batch_size_run :
  run sample_env (with_batch_size 0 default_args)
  = (Raised (ZeroDivisionError "float division by zero"), []).
Proof. vm_compute. reflexivity. Qed.

(** *** Observations of a run *)

Lemma fit_calls_expected env a nt nv sel q :
  fit_calls (expected_trace env a nt nv sel q)
  = [(built_model env a sel q, transfer_fit env a nt nv sel);
     (unfrozen_model env a nt nv sel q, fine_tune_fit env a nt nv sel)].
Proof.
  unfold expected_trace, build_events, rebuild_events, store_events.
  destruct (2 <=? args.gpu_num a), (rebuilds a), (args.model_pruning a),
    (args.quantize_aware_training a); reflexivity.
Qed.

Lemma model_calls_expected env a nt nv sel q :
  model_calls (expected_trace env a nt nv sel q)
  = [(strategy_scope a, sel_get_train_model sel, model_call env a q)].
Proof.
  unfold expected_trace, build_events, rebuild_events, store_events.
  destruct (2 <=? args.gpu_num a), (rebuilds a), (args.model_pruning a),
    (args.quantize_aware_training a); reflexivity.
Qed.

(** What any run calls: nothing when [main] raises, the closed form otherwise. *)
Lemma run_trace env a :
  snd (run env a) = [] \/
  exists nt nv sel q,
    split_sizes env a = Returned (nt, nv) /\ select_model a = Returned sel
    /\ snd (run env a) = expected_trace env a nt nv sel q.
Proof.
  pose proof (run_cases env a) as C.
  destruct (split_sizes env a) as [e|[nt nv]]; [left; now rewrite C|].
  destruct (check_input_shape _) as [e|[]]; [left; now rewrite C|].
  destruct (select_model a) as [e|sel]; [left; now rewrite C|].
  destruct (float_mul_int _ nt) as [e|x]; [left; now rewrite C|].
  destruct (float_div_int x _) as [e|q]; [left; now rewrite C|].
  right. exists nt, nv, sel, q. rewrite C. auto.
Qed.

(** *** The dispatch on the model type *)

Lemma prefix_comparable (s p p' : string) :
  String.prefix p s = true -> String.prefix p' s = true ->
  String.prefix p p' = true \/ String.prefix p' p = true.
Proof.
  revert p p'. induction s as [|c s IH]; intros [|x p] [|y p']; cbn; auto; try discriminate.
  destruct (ascii_dec x c); [subst x|discriminate].
  destruct (ascii_dec y c); [subst y|discriminate].
  destruct (ascii_dec c c); [|contradiction]. apply IH.
Qed.

Lemma startswith_exclusive (s p p' : string) :
  String.prefix p p' = false -> String.prefix p' p = false ->
  startswith s p = true -> startswith s p' = false.
Proof.
  unfold startswith. intros H1 H2 Hp.
  destruct (String.prefix p' s) eqn:Hp'; [|reflexivity].
  destruct (prefix_comparable s p p' Hp Hp'); congruence.
Qed.

(** Decides every prefix test of the goal from one test known to hold. *)
Ltac resolve_prefix H :=
  match type of H with
  | startswith ?s ?p = true =>
      repeat match goal with
        | |- context [startswith s ?p'] =>
            first [ rewrite H
                  | rewrite (startswith_exclusive s p p' eq_refl eq_refl H) ]
        end
  end.

Lemma run_uses_selection env a sel :
  select_model a = Returned sel ->
  (forall sc fn c, In (sc, fn, c) (model_calls (snd (run env a))) ->
                   fn = sel_get_train_model sel)
  /\ (forall m c, In (m, c) (fit_calls (snd (run env a))) ->
                  gen_fn (fit_generator_arg c) = sel_data_generator sel
                  /\ gen_fn (fit_validation_data c) = sel_data_generator sel).
Proof.
  intros Hsel.
  destruct (run_trace env a) as [E|(nt & nv & sel' & q & _ & Hsel' & E)]; rewrite E.
  - split; intros; contradiction.
  - assert (sel' = sel) by congruence. subst sel'.
    rewrite model_calls_expected, fit_calls_expected. split.
    + intros sc fn c [Hin|[]]. now inversion Hin.
    + intros m c [Hin|[Hin|[]]]; inversion Hin; split; reflexivity.
Qed.

(** C1.  The model family is decided by the prefix of [args.model_type]
    alone: a type starting with [scaled_yolo4_] or [yolo5_] selects the
    YOLOv5 constructor and generator; one starting with [yolo3_] or
    [yolo4_] the YOLOv3 pair with [tiny_version] false; one starting with
    [tiny_yolo3_] or [tiny_yolo4_] the YOLOv3 pair with [tiny_version]
    true; one starting with [yolo2_] or [tiny_yolo2_] the YOLOv2 pair.  No
    two of the tests can hold together, so the order of the tests decides
    nothing more.  Arguments with the same model type get the same
    selection, and the constructor and generators a run calls are the
    selected ones. *)
Theorem C1_model_family_by_prefix (a : args.t) :
  let model_type := args.model_type a in
  (startswith model_type "scaled_yolo4_" = true \/ startswith model_type "yolo5_" = true ->
   select_model a = Returned {| sel_get_train_model := get_yolo5_train_model;
                                sel_data_generator := yolo5_data_generator_wrapper;
                                sel_tiny_version := false |})
  /\ (startswith model_type "yolo3_" = true \/ startswith model_type "yolo4_" = true ->
      select_model a = Returned {| sel_get_train_model := get_yolo3_train_model;
                                   sel_data_generator := yolo3_data_generator_wrapper;
                                   sel_tiny_version := false |})
  /\ (startswith model_type "tiny_yolo3_" = true
      \/ startswith model_type "tiny_yolo4_" = true ->
      select_model a = Returned {| sel_get_train_model := get_yolo3_train_model;
                                   sel_data_generator := yolo3_data_generator_wrapper;
                                   sel_tiny_version := true |})
  /\ (startswith model_type "yolo2_" = true \/ startswith model_type "tiny_yolo2_" = true ->
      select_model a = Returned {| sel_get_train_model := get_yolo2_train_model;
                                   sel_data_generator := yolo2_data_generator_wrapper;
                                   sel_tiny_version := false |})
  /\ (forall a' : args.t,
        args.model_type a' = model_type -> select_model a' = select_model a)
  /\ (forall (env : Env) (sel : Selection),
        select_model a = Returned sel ->
        (forall sc fn c, In (sc, fn, c) (model_calls (snd (run env a))) ->
                         fn = sel_get_train_model sel)
        /\ (forall m c, In (m, c) (fit_calls (snd (run env a))) ->
                        gen_fn (fit_generator_arg c) = sel_data_generator sel
                        /\ gen_fn (fit_validation_data c) = sel_data_generator sel)).
Proof.
  cbv zeta. repeat apply conj.
  1-4: unfold select_model; intros [H|H]; resolve_prefix H; reflexivity.
  - intros a' E. unfold select_model. now rewrite E.
  - intros env sel. apply run_uses_selection.
Qed.

(** Four model types of the four families. *)
Lemma C1_witness :
  select_model default_args
  = Returned {| sel_get_train_model := get_yolo3_train_model;
                sel_data_generator := yolo3_data_generator_wrapper;
                sel_tiny_version := false |}
  /\ select_model (with_model_type "tiny_yolo4_mobilenet_lite" default_args)
     = Returned {| sel_get_train_model := get_yolo3_train_model;
                   sel_data_generator := yolo3_data_generator_wrapper;
                   sel_tiny_version := true |}
  /\ select_model (with_model_type "scaled_yolo4_csp_darknet" default_args)
     = Returned {| sel_get_train_model := get_yolo5_train_model;
                   sel_data_generator := yolo5_data_generator_wrapper;
                   sel_tiny_version := false |}
  /\ select_model (with_model_type "tiny_yolo2_mobilenet" default_args)
     = Returned {| sel_get_train_model := get_yolo2_train_model;
                   sel_data_generator := yolo2_data_generator_wrapper;
                   sel_tiny_version := false |}.
Proof.
  repeat apply conj.
  - destruct (C1_model_family_by_prefix default_args) as (_ & H & _).
    apply H. left. reflexivity.
  - destruct (C1_model_family_by_prefix
                (with_model_type "tiny_yolo4_mobilenet_lite" default_args))
      as (_ & _ & H & _).
    apply H. right. reflexivity.
  - destruct (C1_model_family_by_prefix
                (with_model_type "scaled_yolo4_csp_darknet" default_args))
      as (H & _).
    apply H. left. reflexivity.
  - destruct (C1_model_family_by_prefix
                (with_model_type "tiny_yolo2_mobilenet" default_args))
      as (_ & _ & _ & H & _).
    apply H. right. reflexivity.
Defined.

(** *** Unsupported model types *)

Lemma select_model_recognized (a : args.t) :
  if recognized (args.model_type a)
  then exists sel, select_model a = Returned sel
  else select_model a = Raised (ValueError "Unsupported model type").
Proof.
  unfold recognized, recognized_prefixes, select_model. cbn [existsb].
  destruct (startswith _ "scaled_yolo4_"), (startswith _ "yolo5_"),
    (startswith _ "yolo3_"), (startswith _ "yolo4_"),
    (startswith _ "tiny_yolo3_"), (startswith _ "tiny_yolo4_"),
    (startswith _ "yolo2_"), (startswith _ "tiny_yolo2_"); cbn; eauto.
Qed.

Lemma float_of_int_raises (n : Z) (e : exn) :
  float_of_int n = Raised e -> e = OverflowError "int too large to convert to float".
Proof.
  unfold float_of_int. destruct (PrimFloat.is_infinity _); congruence.
Qed.

Lemma int_of_float_raises (x : float) (e : exn) :
  int_of_float x = Raised e ->
  e = OverflowError "cannot convert float infinity to integer"
  \/ e = ValueError "cannot convert float NaN to integer".
Proof.
  unfold int_of_float. destruct (Prim2SF x); intros H; inversion H; auto.
Qed.

Lemma split_sizes_raises env a e :
  split_sizes env a = Raised e -> e <> ValueError "Unsupported model type".
Proof.
  unfold split_sizes, split_dataset, bind, write_dataset, read_dataset, lift, ret.
  cbn [dataset callbacks trace initial_state fst snd].
  destruct (truthy (args.val_annotation_file a)); cbn [fst snd]; [discriminate|].
  unfold int_mul_float.
  destruct (float_of_int _) as [e0|f] eqn:Hf; cbn [fst snd].
  - intros H. inversion H. subst e0. apply float_of_int_raises in Hf. now subst e.
  - destruct (int_of_float _) as [e0|n] eqn:Hn; cbn [fst snd]; [|discriminate].
    intros H. inversion H. subst e0.
    destruct (int_of_float_raises _ _ Hn); now subst e.
Qed.

Lemma check_input_shape_raises sh e :
  check_input_shape sh = Raised e ->
  e = AssertionError "model_input_shape should be multiples of 32".
Proof.
  unfold check_input_shape. destruct (_ && _); congruence.
Qed.

Lemma float_mul_int_raises x n e :
  float_mul_int x n = Raised e -> e = OverflowError "int too large to convert to float".
Proof.
  unfold float_mul_int. destruct (float_of_int n) eqn:Hf; [|discriminate].
  intros H. inversion H. subst. now apply float_of_int_raises in Hf.
Qed.

Lemma float_div_int_raises x n e :
  float_div_int x n = Raised e ->
  e = OverflowError "int too large to convert to float"
  \/ e = ZeroDivisionError "float division by zero".
Proof.
  unfold float_div_int. destruct (float_of_int n) eqn:Hf.
  - intros H. inversion H. subst. left. now apply float_of_int_raises in Hf.
  - destruct (PrimFloat.is_zero a); intros H; inversion H. now right.
Qed.

(** C6, as amended.  When [args.model_type] starts with none of the eight
    prefixes, the dispatch raises [ValueError('Unsupported model type')];
    [main] then always raises before any call into the framework (no model
    is constructed, no fit call is made), and what it raises is that
    [ValueError] whenever the statements before the dispatch (the dataset
    split and the input-shape assertion) have raised nothing.  When the
    model type starts with one of the prefixes the dispatch returns a
    selection and [main] never raises that error. *)
Theorem C6_unsupported_model_type (env : Env) (a : args.t) :
  (recognized (args.model_type a) = false ->
   select_model a = Raised (ValueError "Unsupported model type")
   /\ (exists e, run env a = (Raised e, []))
   /\ (forall nt nv,
         split_sizes env a = Returned (nt, nv) ->
         check_input_shape (args.model_input_shape a) = Returned tt ->
         run env a = (Raised (ValueError "Unsupported model type"), [])))
  /\ (recognized (args.model_type a) = true ->
      (exists sel, select_model a = Returned sel)
      /\ fst (run env a) <> Raised (ValueError "Unsupported model type")).
Proof.
  pose proof (select_model_recognized a) as R.
  pose proof (run_cases env a) as C.
  split; intros Hr; rewrite Hr in R.
  - split; [exact R|]. rewrite R in C. split.
    + destruct (split_sizes env a) as [e|[nt nv]]; [eauto|].
      destruct (check_input_shape _) as [e|[]]; eauto.
    + intros nt nv Hs Hc. now rewrite Hs, Hc in C.
  - split; [exact R|]. destruct R as [sel Hsel]. rewrite Hsel in C.
    destruct (split_sizes env a) as [e|[nt nv]] eqn:Hs.
    { rewrite C. cbn. intros H. inversion H. now apply (split_sizes_raises _ _ _ Hs). }
    destruct (check_input_shape _) as [e|[]] eqn:Hc.
    { rewrite C. cbn. apply check_input_shape_raises in Hc. now subst e. }
    destruct (float_mul_int _ nt) as [e|x] eqn:Hx.
    { rewrite C. cbn. apply float_mul_int_raises in Hx. now subst e. }
    destruct (float_div_int x _) as [e|q] eqn:Hq.
    { rewrite C. cbn. destruct (float_div_int_raises _ _ _ Hq); now subst e. }
    rewrite C. discriminate.
Qed.

(** An unknown model type with the default input shape, and the default
    model type. *)
Lemma C6_witness :
  let a := with_model_type "resnet50_custom" default_args in
  recognized (args.model_type a) = false
  /\ run sample_env a = (Raised (ValueError "Unsupported model type"), [])
  /\ recognized (args.model_type default_args) = true
  /\ fst (run sample_env default_args) <> Raised (ValueError "Unsupported model type").
Proof.
  intros a.
  destruct (C6_unsupported_model_type sample_env a) as [Hno _].
  destruct (Hno eq_refl) as (_ & _ & Hrun).
  destruct (C6_unsupported_model_type sample_env default_args) as [_ Hyes].
  destruct (Hyes eq_refl) as (_ & Hnot).
  repeat apply conj.
  - reflexivity.
  - apply (Hrun 36 4); vm_compute; reflexivity.
  - reflexivity.
  - exact Hnot.
Defined.

(** C6 as stated fails: with an unknown model type and an input shape of
    100x100 the assertion of line 138 fires first, and [main] raises an
    [AssertionError], not the [ValueError]. *)
Lemma C6_counterexample :
  recognized (args.model_type args_unknown_type_odd_shape) = false
  /\ run sample_env args_unknown_type_odd_shape
     = (Raised (AssertionError "model_input_shape should be multiples of 32"), [])
  /\ fst (run sample_env args_unknown_type_odd_shape)
     <> Raised (ValueError "Unsupported model type").
Proof.
  repeat split; try (vm_compute; reflexivity).
  vm_compute. discriminate.
Qed.

(** *** The input-shape assertion *)

Lemma with_model_type_split env a mt :
  split_sizes env (with_model_type mt a) = split_sizes env a.
Proof. destruct a; reflexivity. Qed.

Lemma with_model_type_shape a mt :
  args.model_input_shape (with_model_type mt a) = args.model_input_shape a.
Proof. destruct a; reflexivity. Qed.

(** C9, as amended.  When the height or the width of
    [args.model_input_shape] is not a multiple of 32, the assertion of line
    138 fails; [main] then always raises before any call into the
    framework, whatever the model type (the dispatch is never consulted),
    and what it raises is the [AssertionError] whenever the dataset split
    before it has raised nothing.  When both are multiples of 32 the
    assertion passes. *)
Theorem C9_input_shape_assertion (env : Env) (a : args.t) :
  let height := fst (args.model_input_shape a) in
  let width := snd (args.model_input_shape a) in
  (height mod 32 <> 0 \/ width mod 32 <> 0 ->
   check_input_shape (args.model_input_shape a)
   = Raised (AssertionError "model_input_shape should be multiples of 32")
   /\ (exists e, run env a = (Raised e, []))
   /\ (forall model_type, run env (with_model_type model_type a) = run env a)
   /\ (forall nt nv,
         split_sizes env a = Returned (nt, nv) ->
         run env a
         = (Raised (AssertionError "model_input_shape should be multiples of 32"), [])))
  /\ (height mod 32 = 0 /\ width mod 32 = 0 ->
      check_input_shape (args.model_input_shape a) = Returned tt).
Proof.
  cbv zeta. split.
  - intros Hbad.
    assert (Hc : check_input_shape (args.model_input_shape a)
                 = Raised (AssertionError "model_input_shape should be multiples of 32")).
    { unfold check_input_shape.
      destruct (Z.eqb_spec (fst (args.model_input_shape a) mod 32) 0);
        destruct (Z.eqb_spec (snd (args.model_input_shape a) mod 32) 0);
        cbn; try reflexivity. destruct Hbad; contradiction. }
    assert (Hrun : forall a', split_sizes env a' = split_sizes env a ->
                              args.model_input_shape a' = args.model_input_shape a ->
                              run env a' = match split_sizes env a with
                                           | Raised e => (Raised e, [])
                                           | Returned _ =>
                                               (Raised (AssertionError
                                                  "model_input_shape should be multiples of 32"), [])
                                           end).
    { intros a' Es Esh. pose proof (run_cases env a') as C.
      rewrite Es, Esh, Hc in C. destruct (split_sizes env a) as [e|[nt nv]]; exact C. }
    split; [exact Hc|]. split; [|split].
    + rewrite (Hrun a eq_refl eq_refl). destruct (split_sizes env a); eauto.
    + intros mt. rewrite (Hrun a eq_refl eq_refl).
      apply Hrun; [apply with_model_type_split|apply with_model_type_shape].
    + intros nt nv Hs. rewrite (Hrun a eq_refl eq_refl), Hs. reflexivity.
  - intros [Hh Hw]. unfold check_input_shape. now rewrite Hh, Hw.
Qed.

(** A width of 100 with the default arguments, and the default shape. *)
Lemma C9_witness :
  let a := with_model_input_shape (416, 100) default_args in
  run sample_env a
  = (Raised (AssertionError "model_input_shape should be multiples of 32"), [])
  /\ check_input_shape (args.model_input_shape default_args) = Returned tt.
Proof.
  intros a.
  destruct (C9_input_shape_assertion sample_env a) as [Hbad _].
  destruct (C9_input_shape_assertion sample_env default_args) as [_ Hgood].
  split.
  - assert (Hw : fst (args.model_input_shape a) mod 32 <> 0
                 \/ snd (args.model_input_shape a) mod 32 <> 0)
      by (right; vm_compute; discriminate).
    destruct (Hbad Hw) as (_ & _ & _ & Hrun).
    apply (Hrun 36 4). vm_compute. reflexivity.
  - apply Hgood. split; reflexivity.
Defined.

(** C9 as stated fails: when [val_split] is not a number, line 127 raises
    a [ValueError] before the assertion is reached, also for an input shape
    of 100x100. *)
Lemma C9_counterexample :
  fst (args.model_input_shape args_nan_split_odd_shape) mod 32 <> 0
  /\ run sample_env args_nan_split_odd_shape
     = (Raised (ValueError "cannot convert float NaN to integer"), [])
  /\ fst (run sample_env args_nan_split_odd_shape)
     <> Raised (AssertionError "model_input_shape should be multiples of 32").
Proof.
  repeat split; try (vm_compute; reflexivity); vm_compute; discriminate.
Qed.

(** *** The freeze level *)

(** C10.  The freeze level of the transfer stage is [args.freeze_level]
    when that is given; otherwise it is 0 when a (non-empty) weights path
    is supplied and 1 when there is none.  This is the value every model
    constructor call of a run receives. *)
Theorem C10_freeze_level_precedence (a : args.t) :
  (forall level, args.freeze_level a = Some level -> get_freeze_level a = level)
  /\ (args.freeze_level a = None ->
      get_freeze_level a = if truthy (args.weights_path a) then 0 else 1)
  /\ (args.freeze_level a = None ->
      forall path, args.weights_path a = Some path -> path <> "" ->
                   get_freeze_level a = 0)
  /\ (args.freeze_level a = None -> args.weights_path a = None -> get_freeze_level a = 1)
  /\ (forall env sc fn c,
        In (sc, fn, c) (model_calls (snd (run env a))) ->
        tm_freeze_level c = get_freeze_level a).
Proof.
  unfold get_freeze_level. repeat apply conj.
  - intros level ->. reflexivity.
  - intros ->. reflexivity.
  - intros -> path -> Hp. cbn. destruct (String.eqb_spec path ""); [contradiction|reflexivity].
  - intros -> ->. reflexivity.
  - intros env sc fn c Hin.
    destruct (run_trace env a) as [E|(nt & nv & sel & q & _ & _ & E)];
      rewrite E in Hin; [contradiction|].
    rewrite model_calls_expected in Hin. destruct Hin as [Hin|[]].
    inversion Hin. reflexivity.
Qed.

(** The defaults, pretrained weights, and an explicit freeze level. *)
Lemma C10_witness :
  get_freeze_level default_args = 1
  /\ get_freeze_level args_pretrained = 0
  /\ get_freeze_level (with_freeze_level (Some 2) args_pretrained) = 2.
Proof.
  repeat apply conj.
  - destruct (C10_freeze_level_precedence default_args) as (_ & _ & _ & H & _).
    apply H; reflexivity.
  - destruct (C10_freeze_level_precedence args_pretrained) as (_ & _ & H & _).
    apply (H eq_refl "weights/yolov3.h5"); [reflexivity|discriminate].
  - destruct (C10_freeze_level_precedence (with_freeze_level (Some 2) args_pretrained))
      as (H & _).
    apply H. reflexivity.
Defined.

(** *** Slices and the dataset split *)

Lemma clamp_index_within (n k : nat) : (k <= n)%nat -> clamp_index n (Z.of_nat k) = k.
Proof.
  intros Hk. unfold clamp_index.
  destruct (Z.ltb_spec (Z.of_nat k) 0); [lia|].
  rewrite Z.min_l by lia. apply Nat2Z.id.
Qed.

Lemma slice_to_app {A} (l r : list A) : slice_to (l ++ r) (len l) = l.
Proof.
  unfold slice_to, len. rewrite clamp_index_within by (rewrite length_app; lia).
  apply firstn_middle.
Qed.

Lemma slice_from_app {A} (l r : list A) : slice_from (l ++ r) (len l) = r.
Proof.
  unfold slice_from, len. rewrite clamp_index_within by (rewrite length_app; lia).
  induction l; cbn; auto.
Qed.

Lemma floor_of_float_not_negative (x : float) :
  is_negative x = false -> floor_of_float x = int_of_float x.
Proof.
  unfold is_negative, floor_of_float, int_of_float.
  destruct (Prim2SF x) as [| | |[|] m e]; try reflexivity. discriminate.
Qed.

Lemma split_sizes_file env a :
  truthy (args.val_annotation_file a) = true ->
  split_sizes env a
  = Returned (len (get_dataset env (args.annotation_file a)),
              len (get_dataset env (string_of (args.val_annotation_file a))))
  /\ annotation_lines env a
     = (get_dataset env (args.annotation_file a)
        ++ get_dataset env (string_of (args.val_annotation_file a)))%list.
Proof.
  intros Hv. unfold split_sizes, annotation_lines, split_dataset.
  rewrite Hv. split; reflexivity.
Qed.

Lemma split_sizes_share env a :
  truthy (args.val_annotation_file a) = false ->
  annotation_lines env a = get_dataset env (args.annotation_file a)
  /\ split_sizes env a
     = match int_mul_float (len (get_dataset env (args.annotation_file a)))
                           (args.val_split a) with
       | Raised e => Raised e
       | Returned x =>
           match int_of_float x with
           | Raised e => Raised e
           | Returned num_val =>
               Returned (len (get_dataset env (args.annotation_file a)) - num_val, num_val)
           end
       end.
Proof.
  intros Hv. unfold split_sizes, annotation_lines, split_dataset.
  rewrite Hv.
  unfold bind, write_dataset, read_dataset, lift, ret.
  cbn [dataset callbacks trace initial_state fst snd].
  destruct (int_mul_float _ _) as [e|x]; [split; reflexivity|].
  destruct (int_of_float x); split; reflexivity.
Qed.

(** C4, as amended.  Whenever the split returns, [num_train + num_val] is
    the length of the annotation list.  Without a validation file the list
    is the training file's, [num_val] is [int(len(dataset) * val_split)],
    the float product truncated toward zero (its floor whenever the product
    is not negative), and [num_train = len(dataset) - num_val].  With a
    validation file [num_train] and [num_val] are the lengths of the two
    lists, the annotation list is the training list followed by the
    validation list, and [dataset[:num_train]] and [dataset[num_train:]]
    are exactly those two lists.  The generators of the first fit call
    receive [dataset[:num_train]] and [dataset[num_train:]] of that list,
    and so do those of the second when no shuffle callback is installed. *)
Theorem C4_dataset_split (env : Env) (a : args.t) :
  let train := get_dataset env (args.annotation_file a) in
  let val := get_dataset env (string_of (args.val_annotation_file a)) in
  (forall nt nv,
     split_sizes env a = Returned (nt, nv) -> nt + nv = len (annotation_lines env a))
  /\ (truthy (args.val_annotation_file a) = false ->
      annotation_lines env a = train
      /\ forall nt nv,
          split_sizes env a = Returned (nt, nv) ->
          nt = len train - nv
          /\ exists x,
              int_mul_float (len train) (args.val_split a) = Returned x
              /\ int_of_float x = Returned nv
              /\ (is_negative x = false -> floor_of_float x = Returned nv))
  /\ (truthy (args.val_annotation_file a) = true ->
      split_sizes env a = Returned (len train, len val)
      /\ annotation_lines env a = (train ++ val)%list
      /\ slice_to (annotation_lines env a) (len train) = train
      /\ slice_from (annotation_lines env a) (len train) = val)
  /\ (forall nt nv m c rest,
        split_sizes env a = Returned (nt, nv) ->
        fit_calls (snd (run env a)) = (m, c) :: rest ->
        gen_annotation_lines (fit_generator_arg c) = slice_to (annotation_lines env a) nt
        /\ gen_annotation_lines (fit_validation_data c)
           = slice_from (annotation_lines env a) nt)
  /\ (args.data_shuffle a = false ->
      forall nt nv m c,
        split_sizes env a = Returned (nt, nv) ->
        In (m, c) (fit_calls (snd (run env a))) ->
        gen_annotation_lines (fit_generator_arg c) = slice_to (annotation_lines env a) nt
        /\ gen_annotation_lines (fit_validation_data c)
           = slice_from (annotation_lines env a) nt).
Proof.
  cbv zeta. repeat apply conj.
  - intros nt nv Hs.
    destruct (truthy (args.val_annotation_file a)) eqn:Hv.
    + destruct (split_sizes_file env a Hv) as [Es El].
      rewrite Es in Hs. inversion Hs. rewrite El. unfold len.
      rewrite length_app. lia.
    + destruct (split_sizes_share env a Hv) as [El Es].
      rewrite Es in Hs. rewrite El.
      destruct (int_mul_float _ _) as [e|x]; [discriminate|].
      destruct (int_of_float x) as [e|n]; [discriminate|].
      inversion Hs. lia.
  - intros Hv. destruct (split_sizes_share env a Hv) as [El Es].
    split; [exact El|]. intros nt nv Hs. rewrite Es in Hs.
    destruct (int_mul_float _ _) as [e|x]; [discriminate|].
    destruct (int_of_float x) as [e|n] eqn:Hn; [discriminate|].
    inversion Hs. subst. split; [reflexivity|].
    exists x. repeat split; [exact Hn|].
    intros Hneg. now rewrite floor_of_float_not_negative.
  - intros Hv. destruct (split_sizes_file env a Hv) as [Es El].
    rewrite El. repeat split; [exact Es|apply slice_to_app|apply slice_from_app].
  - intros nt nv m c rest Hs Hf.
    destruct (run_trace env a) as [E|(nt' & nv' & sel & q & Hs' & _ & E)];
      rewrite E in Hf; [discriminate|].
    rewrite fit_calls_expected in Hf. inversion Hf.
    assert (nt' = nt) by congruence. subst. split; reflexivity.
  - intros Hsh nt nv m c Hs Hin.
    destruct (run_trace env a) as [E|(nt' & nv' & sel & q & Hs' & _ & E)];
      rewrite E in Hin; [contradiction|].
    rewrite fit_calls_expected in Hin.
    assert (nt' = nt) by congruence. subst.
    destruct Hin as [Hin|[Hin|[]]]; inversion Hin; cbn [fit_call fine_tune_fit transfer_fit
      fit_generator_arg fit_validation_data gen_annotation_lines];
      unfold lines_after_transfer; rewrite ?Hsh; split; reflexivity.
Qed.

(** The default split of forty lines, and a run with a validation file. *)
Lemma C4_witness :
  split_sizes sample_env default_args = Returned (36, 4)
  /\ 36 + 4 = len (annotation_lines sample_env default_args)
  /\ split_sizes sample_env args_four_gpus = Returned (40, 3)
  /\ slice_to (annotation_lines sample_env args_four_gpus) 40 = sample_lines "train" 40
  /\ slice_from (annotation_lines sample_env args_four_gpus) 40 = sample_lines "val" 3.
Proof.
  assert (Hs : split_sizes sample_env default_args = Returned (36, 4))
    by (vm_compute; reflexivity).
  destruct (C4_dataset_split sample_env default_args) as (Hsum & _).
  destruct (C4_dataset_split sample_env args_four_gpus) as (_ & _ & Hfile & _).
  destruct (Hfile eq_refl) as (Hsz & _ & Hto & Hfrom).
  repeat apply conj.
  - exact Hs.
  - exact (Hsum 36 4 Hs).
  - exact Hsz.
  - exact Hto.
  - exact Hfrom.
Defined.

(** C4 as stated fails: for forty lines and a validation share of -0.16
    the product is -6.4, line 127 computes [int(-6.4) = -6] (so 46 training
    lines), where the floor is -7. *)
Lemma C4_counterexample :
  truthy (args.val_annotation_file args_negative_split) = false
  /\ split_sizes sample_env args_negative_split = Returned (46, -6)
  /\ floor_num_val (len (get_dataset sample_env (args.annotation_file args_negative_split)))
                   (args.val_split args_negative_split)
     = Returned (-7).
Proof. repeat split; vm_compute; reflexivity. Qed.

(** *** Epochs *)

Lemma in_epochs_run (i e x : Z) : In x (epochs_run i e) <-> i <= x < e.
Proof.
  unfold epochs_run. rewrite in_map_iff. split.
  - intros (k & <- & Hk). apply in_seq in Hk. lia.
  - intros Hx. exists (Z.to_nat (x - i)). split; [lia|]. apply in_seq. lia.
Qed.

Lemma map_seq_shift {A} (f : nat -> A) (s n : nat) :
  map f (seq s n) = map (fun k => f (s + k)%nat) (seq 0 n).
Proof.
  rewrite <- (Nat.add_0_r s) at 1. rewrite <- (map_map (fun k => (s + k)%nat) f).
  f_equal. clear f. revert s. generalize 0%nat.
  induction n as [|n IH]; intros m s; cbn [seq map]; [reflexivity|].
  f_equal. rewrite <- Nat.add_succ_r. apply IH.
Qed.

Lemma epochs_run_app (i m e : Z) :
  i <= m <= e -> (epochs_run i m ++ epochs_run m e)%list = epochs_run i e.
Proof.
  intros H. unfold epochs_run.
  replace (Z.to_nat (e - i)) with (Z.to_nat (m - i) + Z.to_nat (e - m))%nat by lia.
  rewrite seq_app, map_app. apply f_equal.
  cbn [Nat.add]. rewrite (map_seq_shift _ (Z.to_nat (m - i))).
  apply map_ext. intros k. lia.
Qed.

(** C2, as amended.  A run that returns makes exactly two fit calls, in
    this order: the first from [initial_epoch = init_epoch] to
    [epochs = init_epoch + transfer_epoch], the second from
    [initial_epoch = init_epoch + transfer_epoch] to [epochs = total_epoch],
    both with [steps_per_epoch = max(1, num_train // batch_size)] and
    [validation_steps = max(1, num_val // batch_size)].  The two stages
    never share an epoch, and when
    [0 <= transfer_epoch <= total_epoch - init_epoch] they cover exactly the
    epochs from [init_epoch] up to [total_epoch]. *)
Theorem C2_two_stage_schedule (env : Env) (a : args.t) :
  fst (run env a) = Returned tt ->
  exists nt nv m1 c1 m2 c2,
    split_sizes env a = Returned (nt, nv)
    /\ args.batch_size a <> 0
    /\ fit_calls (snd (run env a)) = [(m1, c1); (m2, c2)]
    /\ fit_initial_epoch c1 = args.init_epoch a
    /\ fit_epochs c1 = args.init_epoch a + args.transfer_epoch a
    /\ fit_initial_epoch c2 = args.init_epoch a + args.transfer_epoch a
    /\ fit_epochs c2 = args.total_epoch a
    /\ fit_steps_per_epoch c1 = Z.max 1 (nt / args.batch_size a)
    /\ fit_steps_per_epoch c2 = Z.max 1 (nt / args.batch_size a)
    /\ fit_validation_steps c1 = Z.max 1 (nv / args.batch_size a)
    /\ fit_validation_steps c2 = Z.max 1 (nv / args.batch_size a)
    /\ (forall e, In e (epochs_of c1) -> ~ In e (epochs_of c2))
    /\ (0 <= args.transfer_epoch a <= args.total_epoch a - args.init_epoch a ->
        epochs_covered (snd (run env a))
        = epochs_run (args.init_epoch a) (args.total_epoch a)).
Proof.
  intros Hret.
  destruct (run_returned env a Hret) as (nt & nv & sel & x & q & Hs & _ & _ & _ & Hq & E).
  exists nt, nv, (built_model env a sel q), (transfer_fit env a nt nv sel),
    (unfrozen_model env a nt nv sel q), (fine_tune_fit env a nt nv sel).
  unfold epochs_covered. rewrite E, fit_calls_expected.
  repeat apply conj; try reflexivity.
  - exact Hs.
  - exact (float_div_int_nonzero _ _ _ Hq).
  - intros e H1 H2. unfold epochs_of in *. apply in_epochs_run in H1, H2.
    cbn in H1, H2. lia.
  - intros Ht. cbn [flat_map snd]. rewrite app_nil_r. unfold epochs_of.
    cbn [transfer_fit fine_tune_fit fit_call fit_initial_epoch fit_epochs].
    apply epochs_run_app. lia.
Qed.

(** The default arguments: the run returns, with epochs 0-20 and 20-250. *)
Lemma C2_witness :
  let env := sample_env in
  let a := default_args in
  fst (run env a) = Returned tt
  /\ (exists nt nv m1 c1 m2 c2,
       split_sizes env a = Returned (nt, nv)
       /\ args.batch_size a <> 0
       /\ fit_calls (snd (run env a)) = [(m1, c1); (m2, c2)]
       /\ fit_initial_epoch c1 = args.init_epoch a
       /\ fit_epochs c1 = args.init_epoch a + args.transfer_epoch a
       /\ fit_initial_epoch c2 = args.init_epoch a + args.transfer_epoch a
       /\ fit_epochs c2 = args.total_epoch a
       /\ fit_steps_per_epoch c1 = Z.max 1 (nt / args.batch_size a)
       /\ fit_steps_per_epoch c2 = Z.max 1 (nt / args.batch_size a)
       /\ fit_validation_steps c1 = Z.max 1 (nv / args.batch_size a)
       /\ fit_validation_steps c2 = Z.max 1 (nv / args.batch_size a)
       /\ (forall e, In e (epochs_of c1) -> ~ In e (epochs_of c2))
       /\ (0 <= args.transfer_epoch a <= args.total_epoch a - args.init_epoch a ->
           epochs_covered (snd (run env a))
           = epochs_run (args.init_epoch a) (args.total_epoch a))).
Proof.
  intros env a.
  assert (H : fst (run env a) = Returned tt) by (vm_compute; reflexivity).
  split; [exact H | exact (C2_two_stage_schedule env a H)].
Defined.

(** C2 as stated fails: with [total_epoch = 10] and the default twenty
    transfer epochs the first stage alone runs epochs 0 to 19 and the
    second none, which is not the range from [init_epoch] to [total_epoch]. *)
Lemma C2_counterexample :
  fst (run sample_env args_short_total) = Returned tt
  /\ epochs_covered (snd (run sample_env args_short_total)) = epochs_run 0 20
  /\ epochs_run (args.init_epoch args_short_total) (args.total_epoch args_short_total)
     = epochs_run 0 10
  /\ epochs_run 0 20 <> epochs_run 0 10.
Proof.
  repeat split; try (vm_compute; reflexivity). vm_compute. discriminate.
Qed.

(** *** The stages of a run *)

Lemma fit_calls_build_events env a sel q : fit_calls (build_events env a sel q) = [].
Proof. unfold build_events. destruct (2 <=? args.gpu_num a); reflexivity. Qed.

Lemma fit_calls_rebuild_events a nt : fit_calls (rebuild_events a nt) = [].
Proof. unfold rebuild_events. destruct (rebuilds a); reflexivity. Qed.

Lemma fit_calls_store_events env a nt nv sel q :
  fit_calls (store_events env a nt nv sel q) = [].
Proof.
  unfold store_events.
  destruct (args.model_pruning a), (args.quantize_aware_training a); reflexivity.
Qed.

Lemma strategy_scope_multi a :
  2 <= args.gpu_num a -> strategy_scope a = Some (devices_list a).
Proof. intros H. unfold strategy_scope. destruct (Z.leb_spec 2 (args.gpu_num a)); [reflexivity|lia]. Qed.

Lemma strategy_scope_single a : args.gpu_num a < 2 -> strategy_scope a = None.
Proof. intros H. unfold strategy_scope. destruct (Z.leb_spec 2 (args.gpu_num a)); [lia|reflexivity]. Qed.

Lemma unfrozen_trainable (ls : list Layer) (i : nat) (l : Layer) :
  nth_error (map unfrozen ls) i = Some l -> trainable l = true.
Proof.
  intros H. apply nth_error_In, in_map_iff in H. destruct H as (l0 & <- & _). reflexivity.
Qed.

(** C3.  In a run that returns, between the first fit call and the second
    the loop over [range(len(model.layers))] succeeds on the model the
    first fit returned, every layer of the model handed to the second fit
    has [trainable] true (the number of layers unchanged), and the model
    is recompiled right before the second fit: inside the scope of the
    mirrored strategy created before the first fit when [gpu_num >= 2],
    outside any scope otherwise. *)
Theorem C3_unfrozen_before_fine_tune (env : Env) (a : args.t) :
  fst (run env a) = Returned tt ->
  exists before m1 c1 between scope o m2 c2 after,
    snd (run env a)
    = (before ++ CallFit m1 c1 :: between
       ++ Compile scope o :: CallFit m2 c2 :: after)%list
    /\ fit_calls before = [] /\ fit_calls between = [] /\ fit_calls after = []
    /\ unfreeze (fit_generator env m1 c1) = Returned (layers m2)
    /\ List.length (layers m2) = List.length (layers (fit_generator env m1 c1))
    /\ (forall i l, nth_error (layers m2) i = Some l -> trainable l = true)
    /\ compiled_with m2 = o
    /\ (2 <= args.gpu_num a ->
        scope = Some (devices_list a) /\ In (MirroredStrategy (devices_list a)) before)
    /\ (args.gpu_num a < 2 -> scope = None).
Proof.
  intros Hret.
  destruct (run_returned env a Hret) as (nt & nv & sel & x & q & _ & _ & _ & _ & _ & E).
  exists (build_events env a sel q), (built_model env a sel q),
    (transfer_fit env a nt nv sel), (Sleep 2 :: rebuild_events a nt),
    (strategy_scope a), (second_optimizer a nt),
    (unfrozen_model env a nt nv sel q), (fine_tune_fit env a nt nv sel),
    (store_events env a nt nv sel q).
  repeat apply conj.
  - exact E.
  - apply fit_calls_build_events.
  - cbn [fit_calls]. apply fit_calls_rebuild_events.
  - apply fit_calls_store_events.
  - apply unfreeze_all.
  - cbn [unfrozen_model layers]. apply length_map.
  - cbn [unfrozen_model layers]. intros i l. apply unfrozen_trainable.
  - reflexivity.
  - intros Hg. split; [now apply strategy_scope_multi|].
    unfold build_events. destruct (Z.leb_spec 2 (args.gpu_num a)); [|lia].
    cbn. auto.
  - apply strategy_scope_single.
Qed.

(** Two GPUs: the run returns and unfreezes inside the strategy scope. *)
Lemma C3_witness :
  let env := sample_env in
  let a := args_two_gpus in
  fst (run env a) = Returned tt
  /\ (exists before m1 c1 between scope o m2 c2 after,
       snd (run env a)
       = (before ++ CallFit m1 c1 :: between
          ++ Compile scope o :: CallFit m2 c2 :: after)%list
       /\ fit_calls before = [] /\ fit_calls between = [] /\ fit_calls after = []
       /\ unfreeze (fit_generator env m1 c1) = Returned (layers m2)
       /\ List.length (layers m2) = List.length (layers (fit_generator env m1 c1))
       /\ (forall i l, nth_error (layers m2) i = Some l -> trainable l = true)
       /\ compiled_with m2 = o
       /\ (2 <= args.gpu_num a ->
           scope = Some (devices_list a) /\ In (MirroredStrategy (devices_list a)) before)
       /\ (args.gpu_num a < 2 -> scope = None)).
Proof.
  intros env a.
  assert (H : fst (run env a) = Returned tt) by (vm_compute; reflexivity).
  split; [exact H | exact (C3_unfrozen_before_fine_tune env a H)].
Defined.

(** C5.  In a run that returns, what follows the second fit call is: the
    call of [strip_pruning] when [args.model_pruning] is set, the model
    being replaced by its result; then, when
    [args.quantize_aware_training] is set, the directory, the h5 file
    [logs/000/trained_last.h5] and the uint8 tflite file
    [logs/000/trained_last_uint8.tflite] of [save_quantized_model], and
    otherwise the single save to [logs/000/trained_final.h5].  Exactly one
    of the two ways of saving is taken. *)
Theorem C5_final_store (env : Env) (a : args.t) :
  fst (run env a) = Returned tt ->
  exists before m1 c1 m2 c2 after,
    snd (run env a) = (before ++ CallFit m2 c2 :: after)%list
    /\ fit_calls before = [(m1, c1)]
    /\ let trained := fit_generator env m2 c2 in
       let model := if args.model_pruning a then strip_pruning env trained else trained in
       let quantized :=
         Resized (SubModel model "image_input"
                    ["quant_predict_conv_1"; "quant_predict_conv_2"])
                 (fst (args.model_input_shape a)) (snd (args.model_input_shape a)) 3 in
       after
       = ((if args.model_pruning a then [StripPruning trained] else [])
          ++ (if args.quantize_aware_training a
              then [Makedirs "logs/000";
                    SaveModel quantized "logs/000/trained_last.h5";
                    WriteTflite quantized "logs/000/trained_last_uint8.tflite"]
              else [SaveModel (TrainModel model) "logs/000/trained_final.h5"]))%list.
Proof.
  intros Hret.
  destruct (run_returned env a Hret) as (nt & nv & sel & x & q & _ & _ & _ & _ & _ & E).
  exists (build_events env a sel q
          ++ CallFit (built_model env a sel q) (transfer_fit env a nt nv sel)
          :: Sleep 2 :: rebuild_events a nt
          ++ [Compile (strategy_scope a) (second_optimizer a nt)])%list,
    (built_model env a sel q), (transfer_fit env a nt nv sel),
    (unfrozen_model env a nt nv sel q), (fine_tune_fit env a nt nv sel),
    (store_events env a nt nv sel q).
  repeat apply conj.
  - rewrite E. unfold expected_trace. rewrite <- !app_assoc. cbn [app].
    rewrite <- !app_assoc. reflexivity.
  - unfold build_events, rebuild_events.
    destruct (2 <=? args.gpu_num a), (rebuilds a); reflexivity.
  - reflexivity.
Qed.

(** Pruning with quantization-aware training: the run returns. *)
Lemma C5_witness :
  let env := sample_env in
  let a := args_pruned_quantized in
  fst (run env a) = Returned tt
  /\ (exists before m1 c1 m2 c2 after,
       snd (run env a) = (before ++ CallFit m2 c2 :: after)%list
       /\ fit_calls before = [(m1, c1)]
       /\ let trained := fit_generator env m2 c2 in
          let model := if args.model_pruning a then strip_pruning env trained else trained in
          let quantized :=
            Resized (SubModel model "image_input"
                       ["quant_predict_conv_1"; "quant_predict_conv_2"])
                    (fst (args.model_input_shape a)) (snd (args.model_input_shape a)) 3 in
          after
          = ((if args.model_pruning a then [StripPruning trained] else [])
             ++ (if args.quantize_aware_training a
                 then [Makedirs "logs/000";
                       SaveModel quantized "logs/000/trained_last.h5";
                       WriteTflite quantized "logs/000/trained_last_uint8.tflite"]
                 else [SaveModel (TrainModel model) "logs/000/trained_final.h5"]))%list).
Proof.
  intros env a.
  assert (H : fst (run env a) = Returned tt) by (vm_compute; reflexivity).
  split; [exact H | exact (C5_final_store env a H)].
Defined.

(** *** The callbacks of the two stages *)

Lemma callbacks_stage2_steps (a : args.t) :
  exists l,
    (if truthy (args.decay_type a)
     then remove same_callback (callbacks_stage1 a) reduce_lr = Returned l
     else l = callbacks_stage1 a)
    /\ (if is_str (args.average_type a) "ema" || is_str (args.average_type a) "swa"
        then exists l', remove same_callback l checkpoint = Returned l'
                        /\ callbacks_stage2 a = insert l' (-1) avg_checkpoint
        else callbacks_stage2 a = l).
Proof.
  unfold callbacks_stage2. cbv zeta.
  destruct (truthy (args.decay_type a)).
  - exists (without (callbacks_stage1 a) reduce_lr). split; [apply remove_reduce_lr|].
    destruct (_ || _); [|reflexivity].
    eexists. split; [apply (remove_checkpoint a true)|reflexivity].
  - exists (callbacks_stage1 a). split; [reflexivity|].
    destruct (_ || _); [|reflexivity].
    eexists. split; [apply (remove_checkpoint a false)|reflexivity].
Qed.

Lemma callbacks_membership (a : args.t) :
  let l1 := callbacks_stage1 a in
  let l2 := callbacks_stage2 a in
  let averaged :=
    is_str (args.average_type a) "ema" || is_str (args.average_type a) "swa" in
  In reduce_lr l1 /\ In checkpoint l1
  /\ (truthy (args.decay_type a) = true -> ~ In reduce_lr l2)
  /\ (truthy (args.decay_type a) = false -> In reduce_lr l2)
  /\ (averaged = true ->
      ~ In checkpoint l2 /\ exists front last, l2 = (front ++ [avg_checkpoint; last])%list)
  /\ (averaged = false -> In checkpoint l2 /\ ~ In avg_checkpoint l2).
Proof.
  cbv zeta. unfold callbacks_stage2, callbacks_stage1, without.
  destruct (truthy (args.decay_type a)),
    (is_str (args.average_type a) "ema" || is_str (args.average_type a) "swa"),
    (args.quantize_aware_training a), (args.eval_online a), (args.data_shuffle a),
    (args.model_pruning a);
    vm_compute;
    repeat apply conj; try (intros; discriminate); try tauto;
    try (intros _; intuition discriminate);
    try (intros _; split; [intuition discriminate|];
         match goal with
         | |- exists p q, ?L = _ =>
             exists (List.removelast (List.removelast L)), (List.last L logging);
             reflexivity
         end).
Qed.

(** C7.  In a run that returns: when [args.decay_type] or
    [args.average_type] is set, the optimizer is rebuilt exactly once,
    between the two fit calls, with
    [decay_steps = max(1, num_train // batch_size)
                   * (total_epoch - init_epoch - transfer_epoch)], and the
    model of the second fit is compiled with it; the callback list of the
    second fit is that of the first with [reduce_lr] removed when
    [decay_type] is set and, when [average_type] is ['ema'] or ['swa'],
    with [checkpoint] removed and [avg_checkpoint] inserted right before
    the last element (for any other value, ['lookahead'] included,
    [checkpoint] stays and no [avg_checkpoint] is added); when neither
    option is set nothing is rebuilt, and the callback list and the
    optimizer of the second fit are those of the first. *)
Theorem C7_second_stage_optimizer_and_callbacks (env : Env) (a : args.t) :
  fst (run env a) = Returned tt ->
  let decayed := truthy (args.decay_type a) in
  let averaged :=
    is_str (args.average_type a) "ema" || is_str (args.average_type a) "swa" in
  exists nt nv before sc fn call m1 c1 between scope o m2 c2 after,
    split_sizes env a = Returned (nt, nv)
    /\ snd (run env a)
       = (before ++ CallGetTrainModel sc fn call :: CallFit m1 c1 :: Sleep 2 :: between
          ++ Compile scope o :: CallFit m2 c2 :: after)%list
    /\ fit_calls before = [] /\ fit_calls after = []
    /\ compiled_with m2 = o
    /\ (decayed || truthy (args.average_type a) = true ->
        between = [CallGetOptimizer o]
        /\ o = get_optimizer (args.optimizer a) (args.learning_rate a)
                 (args.average_type a) (args.decay_type a)
                 (Some (Z.max 1 (nt / args.batch_size a)
                        * (args.total_epoch a - args.init_epoch a
                           - args.transfer_epoch a))))
    /\ (exists l,
          (if decayed
           then remove same_callback (fit_callbacks c1) reduce_lr = Returned l
           else l = fit_callbacks c1)
          /\ (if averaged
              then exists l', remove same_callback l checkpoint = Returned l'
                              /\ fit_callbacks c2 = insert l' (-1) avg_checkpoint
              else fit_callbacks c2 = l))
    /\ (decayed = true -> In reduce_lr (fit_callbacks c1) /\ ~ In reduce_lr (fit_callbacks c2))
    /\ (averaged = true ->
        In checkpoint (fit_callbacks c1) /\ ~ In checkpoint (fit_callbacks c2)
        /\ exists front last,
            fit_callbacks c2 = (front ++ [avg_checkpoint; last])%list)
    /\ (averaged = false ->
        In checkpoint (fit_callbacks c2) /\ ~ In avg_checkpoint (fit_callbacks c2))
    /\ (decayed || truthy (args.average_type a) = false ->
        between = [] /\ fit_callbacks c2 = fit_callbacks c1 /\ o = tm_optimizer call).
Proof.
  intros Hret. cbv zeta.
  destruct (run_returned env a Hret) as (nt & nv & sel & x & q & Hs & _ & _ & _ & _ & E).
  exists nt, nv,
    ([CallGetOptimizer (first_optimizer a)]
     ++ (if 2 <=? args.gpu_num a then [MirroredStrategy (devices_list a)] else []))%list,
    (strategy_scope a), (sel_get_train_model sel), (model_call env a q),
    (built_model env a sel q), (transfer_fit env a nt nv sel), (rebuild_events a nt),
    (strategy_scope a), (second_optimizer a nt),
    (unfrozen_model env a nt nv sel q), (fine_tune_fit env a nt nv sel),
    (store_events env a nt nv sel q).
  pose proof (callbacks_membership a) as (Hr1 & Hc1 & Hr2 & Hr2' & Hav & Hnav).
  cbn [transfer_fit fine_tune_fit fit_call fit_callbacks unfrozen_model compiled_with
       model_call tm_optimizer].
  repeat apply conj.
  - exact Hs.
  - rewrite E. unfold expected_trace, build_events. rewrite <- !app_assoc. reflexivity.
  - destruct (2 <=? args.gpu_num a); reflexivity.
  - apply fit_calls_store_events.
  - reflexivity.
  - intros Hb. unfold rebuild_events, second_optimizer, rebuilds. rewrite Hb.
    split; reflexivity.
  - apply callbacks_stage2_steps.
  - intros Hd. split; [exact Hr1|now apply Hr2].
  - intros Ha. destruct (Hav Ha) as [Hn Hex]. repeat split; assumption.
  - exact Hnav.
  - intros Hb. unfold rebuild_events, second_optimizer, rebuilds. rewrite Hb.
    repeat split. unfold callbacks_stage2. cbv zeta.
    apply orb_false_iff in Hb. destruct Hb as [Hd Ha].
    now rewrite Hd, (not_averaged _ Ha).
Qed.

(** Cosine decay with EMA averaging: the run returns. *)
Lemma C7_witness :
  let env := sample_env in
  let a := args_decay_ema in
  fst (run env a) = Returned tt
  /\ (let decayed := truthy (args.decay_type a) in
     let averaged :=
       is_str (args.average_type a) "ema" || is_str (args.average_type a) "swa" in
     exists nt nv before sc fn call m1 c1 between scope o m2 c2 after,
       split_sizes env a = Returned (nt, nv)
       /\ snd (run env a)
          = (before ++ CallGetTrainModel sc fn call :: CallFit m1 c1 :: Sleep 2 :: between
             ++ Compile scope o :: CallFit m2 c2 :: after)%list
       /\ fit_calls before = [] /\ fit_calls after = []
       /\ compiled_with m2 = o
       /\ (decayed || truthy (args.average_type a) = true ->
           between = [CallGetOptimizer o]
           /\ o = get_optimizer (args.optimizer a) (args.learning_rate a)
                    (args.average_type a) (args.decay_type a)
                    (Some (Z.max 1 (nt / args.batch_size a)
                           * (args.total_epoch a - args.init_epoch a
                              - args.transfer_epoch a))))
       /\ (exists l,
             (if decayed
              then remove same_callback (fit_callbacks c1) reduce_lr = Returned l
              else l = fit_callbacks c1)
             /\ (if averaged
                 then exists l', remove same_callback l checkpoint = Returned l'
                                 /\ fit_callbacks c2 = insert l' (-1) avg_checkpoint
                 else fit_callbacks c2 = l))
       /\ (decayed = true -> In reduce_lr (fit_callbacks c1) /\ ~ In reduce_lr (fit_callbacks c2))
       /\ (averaged = true ->
           In checkpoint (fit_callbacks c1) /\ ~ In checkpoint (fit_callbacks c2)
           /\ exists front last,
               fit_callbacks c2 = (front ++ [avg_checkpoint; last])%list)
       /\ (averaged = false ->
           In checkpoint (fit_callbacks c2) /\ ~ In avg_checkpoint (fit_callbacks c2))
       /\ (decayed || truthy (args.average_type a) = false ->
           between = [] /\ fit_callbacks c2 = fit_callbacks c1 /\ o = tm_optimizer call)).
Proof.
  intros env a.
  assert (H : fst (run env a) = Returned tt) by (vm_compute; reflexivity).
  split; [exact H | exact (C7_second_stage_optimizer_and_callbacks env a H)].
Defined.

(** *** The distribution strategy *)

Lemma nth_error_map_seq {A} (f : nat -> A) (n i : nat) :
  (i < n)%nat -> nth_error (map f (seq 0 n)) i = Some (f i).
Proof.
  intros Hi. rewrite nth_error_map, nth_error_seq.
  destruct (Nat.ltb_spec i n); [reflexivity|lia].
Qed.

Lemma devices_list_spec (a : args.t) :
  len (devices_list a) = Z.max 0 (args.gpu_num a)
  /\ forall i, 0 <= i < args.gpu_num a ->
               nth_error (devices_list a) (Z.to_nat i)
               = Some ("/gpu:" ++ str_of_int i)%string.
Proof.
  unfold devices_list, range, len. split.
  - rewrite length_map, length_seq. lia.
  - intros i Hi. rewrite nth_error_map_seq by lia. now rewrite Z2Nat.id by lia.
Qed.

Lemma events_after_build env a nt nv sel q sc o' :
  In (Compile sc o')
     (CallFit (built_model env a sel q) (transfer_fit env a nt nv sel)
      :: Sleep 2 :: rebuild_events a nt
      ++ Compile (strategy_scope a) (second_optimizer a nt)
      :: CallFit (unfrozen_model env a nt nv sel q) (fine_tune_fit env a nt nv sel)
      :: store_events env a nt nv sel q)%list ->
  sc = strategy_scope a.
Proof.
  unfold rebuild_events, store_events.
  destruct (rebuilds a), (args.model_pruning a), (args.quantize_aware_training a);
    cbn; intuition (try discriminate); congruence.
Qed.

Lemma no_strategy_after_build env a nt nv sel q d :
  ~ In (MirroredStrategy d)
       (CallFit (built_model env a sel q) (transfer_fit env a nt nv sel)
        :: Sleep 2 :: rebuild_events a nt
        ++ Compile (strategy_scope a) (second_optimizer a nt)
        :: CallFit (unfrozen_model env a nt nv sel q) (fine_tune_fit env a nt nv sel)
        :: store_events env a nt nv sel q)%list.
Proof.
  unfold rebuild_events, store_events.
  destruct (rebuilds a), (args.model_pruning a), (args.quantize_aware_training a);
    cbn; intuition discriminate.
Qed.

Lemma model_call_any_gpu_num env a g nt nv sel x q :
  split_sizes env a = Returned (nt, nv) ->
  check_input_shape (args.model_input_shape a) = Returned tt ->
  select_model a = Returned sel ->
  float_mul_int 1.0%float nt = Returned x ->
  float_div_int x (args.batch_size a) = Returned q ->
  model_calls (snd (run env (with_gpu_num g a)))
  = [(strategy_scope (with_gpu_num g a), sel_get_train_model sel, model_call env a q)].
Proof.
  intros Hs Hc Hsel Hx Hq.
  assert (R : run env (with_gpu_num g a)
              = (Returned tt, expected_trace env (with_gpu_num g a) nt nv sel q)).
  { destruct a.
    apply run_returns with (x := x); [exact Hs|exact Hc|exact Hsel|exact Hx|exact Hq]. }
  rewrite R. cbn [snd]. rewrite model_calls_expected. destruct a. reflexivity.
Qed.

(** C8.  In a run that returns: when [gpu_num >= 2] the first calls are
    [get_optimizer], the creation of a mirrored strategy over the devices
    [/gpu:0] ... [/gpu:{gpu_num-1}], and the model constructor inside the
    scope of that strategy, and every later compile is inside that scope
    too; when [gpu_num <= 1] no strategy is ever created and the
    constructor and every compile run outside any scope.  Both branches pass
    the constructor the same arguments: whatever [gpu_num] is changed to,
    the constructor receives the same call. *)
Theorem C8_multi_gpu_strategy (env : Env) (a : args.t) :
  fst (run env a) = Returned tt ->
  exists sel pruning_end_step rest,
    let optimizer :=
      get_optimizer (args.optimizer a) (args.learning_rate a) None None None in
    let call :=
      {| tm_model_type := args.model_type a;
         tm_anchors := get_anchors env (args.anchors_path a);
         tm_num_classes := len (get_classes env (args.classes_path a));
         tm_quantize_aware_training := args.quantize_aware_training a;
         tm_weights_path := args.weights_path a;
         tm_freeze_level := get_freeze_level a;
         tm_optimizer := optimizer;
         tm_label_smoothing := args.label_smoothing a;
         tm_elim_grid_sense := args.elim_grid_sense a;
         tm_model_pruning := args.model_pruning a;
         tm_pruning_end_step := pruning_end_step |} in
    select_model a = Returned sel
    /\ (2 <= args.gpu_num a ->
        snd (run env a)
        = CallGetOptimizer optimizer :: MirroredStrategy (devices_list a)
          :: CallGetTrainModel (Some (devices_list a)) (sel_get_train_model sel) call
          :: rest
        /\ forall sc o, In (Compile sc o) rest -> sc = Some (devices_list a))
    /\ (args.gpu_num a <= 1 ->
        snd (run env a)
        = CallGetOptimizer optimizer
          :: CallGetTrainModel None (sel_get_train_model sel) call :: rest
        /\ forall sc o, In (Compile sc o) rest -> sc = None)
    /\ (forall d, ~ In (MirroredStrategy d) rest)
    /\ (exists sc o, In (Compile sc o) rest)
    /\ (forall gpu_num, exists sc,
          model_calls (snd (run env (with_gpu_num gpu_num a)))
          = [(sc, sel_get_train_model sel, call)])
    /\ len (devices_list a) = Z.max 0 (args.gpu_num a)
    /\ (forall i, 0 <= i < args.gpu_num a ->
                  nth_error (devices_list a) (Z.to_nat i)
                  = Some ("/gpu:" ++ str_of_int i)%string).
Proof.
  intros Hret.
  destruct (run_returned env a Hret)
    as (nt & nv & sel & x & q & Hs & Hc & Hsel & Hx & Hq & E).
  exists sel, (np_ceil_int32_times env q (args.total_epoch a)),
    (CallFit (built_model env a sel q) (transfer_fit env a nt nv sel)
      :: Sleep 2 :: rebuild_events a nt
      ++ Compile (strategy_scope a) (second_optimizer a nt)
      :: CallFit (unfrozen_model env a nt nv sel q) (fine_tune_fit env a nt nv sel)
      :: store_events env a nt nv sel q)%list.
  cbv zeta. fold (first_optimizer a). fold (model_call env a q).
  destruct (devices_list_spec a) as [Hlen Hnth].
  repeat apply conj.
  - exact Hsel.
  - intros Hg. rewrite E. unfold expected_trace, build_events.
    rewrite (strategy_scope_multi a Hg).
    destruct (Z.leb_spec 2 (args.gpu_num a)); [|lia]. split; [reflexivity|].
    intros sc o Hin. rewrite <- (strategy_scope_multi a Hg).
    rewrite <- (strategy_scope_multi a Hg) in Hin.
    exact (events_after_build _ _ _ _ _ _ _ _ Hin).
  - intros Hg. assert (Hg' : args.gpu_num a < 2) by lia.
    rewrite E. unfold expected_trace, build_events.
    rewrite (strategy_scope_single a Hg').
    destruct (Z.leb_spec 2 (args.gpu_num a)); [lia|]. split; [reflexivity|].
    intros sc o Hin. rewrite <- (strategy_scope_single a Hg').
    rewrite <- (strategy_scope_single a Hg') in Hin.
    exact (events_after_build _ _ _ _ _ _ _ _ Hin).
  - intros d. apply no_strategy_after_build.
  - exists (strategy_scope a), (second_optimizer a nt).
    cbn [In]. right. right. apply in_or_app. right. now left.
  - intros g. eexists. exact (model_call_any_gpu_num env a g nt nv sel x q Hs Hc Hsel Hx Hq).
  - exact Hlen.
  - exact Hnth.
Qed.

(** Four GPUs and a validation file: the run returns. *)
Lemma C8_witness :
  let env := sample_env in
  let a := args_four_gpus in
  fst (run env a) = Returned tt
  /\ (exists sel pruning_end_step rest,
       let optimizer :=
         get_optimizer (args.optimizer a) (args.learning_rate a) None None None in
       let call :=
         {| tm_model_type := args.model_type a;
            tm_anchors := get_anchors env (args.anchors_path a);
            tm_num_classes := len (get_classes env (args.classes_path a));
            tm_quantize_aware_training := args.quantize_aware_training a;
            tm_weights_path := args.weights_path a;
            tm_freeze_level := get_freeze_level a;
            tm_optimizer := optimizer;
            tm_label_smoothing := args.label_smoothing a;
            tm_elim_grid_sense := args.elim_grid_sense a;
            tm_model_pruning := args.model_pruning a;
            tm_pruning_end_step := pruning_end_step |} in
       select_model a = Returned sel
       /\ (2 <= args.gpu_num a ->
           snd (run env a)
           = CallGetOptimizer optimizer :: MirroredStrategy (devices_list a)
             :: CallGetTrainModel (Some (devices_list a)) (sel_get_train_model sel) call
             :: rest
           /\ forall sc o, In (Compile sc o) rest -> sc = Some (devices_list a))
       /\ (args.gpu_num a <= 1 ->
           snd (run env a)
           = CallGetOptimizer optimizer
             :: CallGetTrainModel None (sel_get_train_model sel) call :: rest
           /\ forall sc o, In (Compile sc o) rest -> sc = None)
       /\ (forall d, ~ In (MirroredStrategy d) rest)
       /\ (exists sc o, In (Compile sc o) rest)
       /\ (forall gpu_num, exists sc,
             model_calls (snd (run env (with_gpu_num gpu_num a)))
             = [(sc, sel_get_train_model sel, call)])
       /\ len (devices_list a) = Z.max 0 (args.gpu_num a)
       /\ (forall i, 0 <= i < args.gpu_num a ->
                     nth_error (devices_list a) (Z.to_nat i)
                     = Some ("/gpu:" ++ str_of_int i)%string)).
Proof.
  intros env a.
  assert (H : fst (run env a) = Returned tt) by (vm_compute; reflexivity).
  split; [exact H | exact (C8_multi_gpu_strategy env a H)].
Defined.

(* ------------------------------------------------------------------ *)
(** ** Further properties of the script *)

(** *** The calls of a run that returns *)

Lemma slice_partition {A} (l : list A) (i : Z) : (slice_to l i ++ slice_from l i)%list = l.
Proof. unfold slice_to, slice_from. apply firstn_skipn. Qed.

(** The two fit calls of a run that returns, in closed form. *)
Lemma fit_calls_returned env a :
  fst (run env a) = Returned tt ->
  exists nt nv sel q,
    split_sizes env a = Returned (nt, nv)
    /\ select_model a = Returned sel
    /\ args.batch_size a <> 0
    /\ fit_calls (snd (run env a))
       = [(built_model env a sel q, transfer_fit env a nt nv sel);
          (unfrozen_model env a nt nv sel q, fine_tune_fit env a nt nv sel)].
Proof.
  intros Hret.
  destruct (run_returned env a Hret) as (nt & nv & sel & x & q & Hs & _ & Hsel & _ & Hq & E).
  exists nt, nv, sel, q. rewrite E, fit_calls_expected.
  repeat split; try assumption. exact (float_div_int_nonzero _ _ _ Hq).
Qed.

(** *** What [main] raises, and when *)



(** X2.  With [--batch_size 0] no run returns and nothing is called:
    whenever the lines before it pass, line 199 raises the division error,
    with or without pruning, so the integer divisions of lines 230-233 are
    never reached with a zero divisor. *)
Theorem zero_batch_size_stops_main (env : Env) (a : args.t) :
  args.batch_size a = 0 ->
  (exists e, run env a = (Raised e, []))
  /\ (forall nt nv sel x,
        split_sizes env a = Returned (nt, nv) ->
        check_input_shape (args.model_input_shape a) = Returned tt ->
        select_model a = Returned sel ->
        float_mul_int 1.0%float nt = Returned x ->
        run env a = (Raised (ZeroDivisionError "float division by zero"), [])).
Proof.
  intros Hb. pose proof (run_cases env a) as C.
  assert (Hq : forall x, float_div_int x (args.batch_size a)
                         = Raised (ZeroDivisionError "float division by zero")).
  { intros x. rewrite Hb. vm_compute. reflexivity. }
  split.
  - destruct (split_sizes env a) as [e|[nt nv]]; [eauto|].
    destruct (check_input_shape _) as [e|[]]; [eauto|].
    destruct (select_model a) as [e|sel]; [eauto|].
    destruct (float_mul_int _ nt) as [e|x]; [eauto|].
    rewrite Hq in C. eauto.
  - intros nt nv sel x Hs Hc Hsel Hx. rewrite Hs, Hc, Hsel, Hx, Hq in C. exact C.
Qed.

Lemma zero_batch_size_stops_main_witness :
  let env := sample_env in
  let a := with_batch_size 0 default_args in
  args.batch_size a = 0
  /\ (exists e, run env a = (Raised e, []))
  /\ (forall nt nv sel x,
        split_sizes env a = Returned (nt, nv) ->
        check_input_shape (args.model_input_shape a) = Returned tt ->
        select_model a = Returned sel ->
        float_mul_int 1.0%float nt = Returned x ->
        run env a = (Raised (ZeroDivisionError "float division by zero"), [])).
Proof.
  intros env a.
  assert (H : args.batch_size a = 0) by reflexivity.
  split; [exact H | exact (zero_batch_size_stops_main env a H)].
Defined.

(** *** The two fit calls *)

(** X3.  In a run that returns, the training lines and the validation
    lines of each [fit_generator] call are the two parts of one list, with
    nothing lost and nothing doubled, whatever [num_train] is (negative or
    beyond the end included): for the first call the annotation list of
    lines 119-128, for the second call that list as the shuffle callback
    left it when [--data_shuffle] is set, and the same list otherwise. *)
Theorem fit_parts_partition (env : Env) (a : args.t) :
  fst (run env a) = Returned tt ->
  let lines c := (gen_annotation_lines (fit_generator_arg c)
                  ++ gen_annotation_lines (fit_validation_data c))%list in
  exists m1 c1 m2 c2,
    fit_calls (snd (run env a)) = [(m1, c1); (m2, c2)]
    /\ lines c1 = annotation_lines env a
    /\ lines c2 = (if args.data_shuffle a
                   then shuffled env c1 (annotation_lines env a)
                   else annotation_lines env a).
Proof.
  intros Hret lines.
  destruct (fit_calls_returned env a Hret) as (nt & nv & sel & q & _ & _ & _ & E).
  do 4 eexists. split; [exact E|]. subst lines.
  cbn [transfer_fit fine_tune_fit fit_call fit_generator_arg fit_validation_data
       gen_annotation_lines].
  rewrite !slice_partition. split; [reflexivity|].
  unfold lines_after_transfer. reflexivity.
Qed.

Lemma fit_parts_partition_witness :
  let env := sample_env in
  let a := args_decay_ema in
  fst (run env a) = Returned tt
  /\ (let lines c := (gen_annotation_lines (fit_generator_arg c)
                      ++ gen_annotation_lines (fit_validation_data c))%list in
      exists m1 c1 m2 c2,
        fit_calls (snd (run env a)) = [(m1, c1); (m2, c2)]
        /\ lines c1 = annotation_lines env a
        /\ lines c2 = (if args.data_shuffle a
                       then shuffled env c1 (annotation_lines env a)
                       else annotation_lines env a)).
Proof.
  intros env a.
  assert (H : fst (run env a) = Returned tt) by (vm_compute; reflexivity).
  split; [exact H | exact (fit_parts_partition env a H)].
Defined.

(** X4.  When the shuffle of the callback keeps the length of the list it
    shares with [main], both stages train on the same number of lines and
    validate on the same number of lines. *)
Theorem shuffle_keeps_part_sizes (env : Env) (a : args.t) :
  (forall c d, List.length (shuffled env c d) = List.length d) ->
  fst (run env a) = Returned tt ->
  exists m1 c1 m2 c2,
    fit_calls (snd (run env a)) = [(m1, c1); (m2, c2)]
    /\ List.length (gen_annotation_lines (fit_generator_arg c2))
       = List.length (gen_annotation_lines (fit_generator_arg c1))
    /\ List.length (gen_annotation_lines (fit_validation_data c2))
       = List.length (gen_annotation_lines (fit_validation_data c1)).
Proof.
  intros Hlen Hret.
  destruct (fit_calls_returned env a Hret) as (nt & nv & sel & q & _ & _ & _ & E).
  do 4 eexists. split; [exact E|].
  cbn [transfer_fit fine_tune_fit fit_call fit_generator_arg fit_validation_data
       gen_annotation_lines].
  assert (L : List.length (lines_after_transfer env a nt nv sel)
              = List.length (annotation_lines env a)).
  { unfold lines_after_transfer. destruct (args.data_shuffle a); [apply Hlen|reflexivity]. }
  unfold slice_to, slice_from.
  rewrite !length_firstn, !length_skipn, L. split; reflexivity.
Qed.

Lemma shuffle_keeps_part_sizes_witness :
  let env := sample_env in
  let a := args_decay_ema in
  (forall c d, List.length (shuffled env c d) = List.length d)
  /\ fst (run env a) = Returned tt
  /\ (exists m1 c1 m2 c2,
        fit_calls (snd (run env a)) = [(m1, c1); (m2, c2)]
        /\ List.length (gen_annotation_lines (fit_generator_arg c2))
           = List.length (gen_annotation_lines (fit_generator_arg c1))
        /\ List.length (gen_annotation_lines (fit_validation_data c2))
           = List.length (gen_annotation_lines (fit_validation_data c1))).
Proof.
  intros env a.
  assert (Hlen : forall c d, List.length (shuffled env c d) = List.length d)
    by (intros c d; apply length_rev).
  assert (H : fst (run env a) = Returned tt) by (vm_compute; reflexivity).
  split; [exact Hlen | split; [exact H | exact (shuffle_keeps_part_sizes env a Hlen H)]].
Defined.

(** The arithmetic of [max(1, n // b)]. *)
Lemma steps_bounds (n b : Z) :
  let steps := Z.max 1 (n / b) in
  1 <= steps
  /\ (0 < b -> steps * b <= Z.max n b)
  /\ (0 < b <= n -> steps * b <= n < (steps + 1) * b)
  /\ (b < 0 -> 0 <= n -> steps = 1).
Proof.
  intros steps. subst steps. repeat split.
  - lia.
  - intros Hb. destruct (Z.max_spec 1 (n / b)) as [[H ->]|[H ->]].
    + pose proof (Z.mul_div_le n b Hb). lia.
    + lia.
  - destruct H as [Hb Hn].
    assert (1 <= n / b) by (apply Z.div_le_lower_bound; lia).
    rewrite Z.max_r by lia. pose proof (Z.mul_div_le n b Hb). lia.
  - destruct H as [Hb Hn].
    assert (1 <= n / b) by (apply Z.div_le_lower_bound; lia).
    rewrite Z.max_r by lia.
    pose proof (Z.mul_succ_div_gt n b Hb). lia.
  - intros Hb Hn.
    assert (n / b <= 0).
    { pose proof (Z.div_mod n b ltac:(lia)). pose proof (Z.mod_neg_bound n b Hb). nia. }
    lia.
Qed.

(** X5.  The step counts [max(1, n // batch_size)] of lines 230, 233, 288
    and 291: the same in both stages and never below 1, also for an empty
    part; with a positive batch size the batches of an epoch need no more
    lines than the part holds, unless the part is smaller than one batch,
    and fewer than [batch_size] lines of the part are left over; a negative
    batch size gives one step. *)
Theorem steps_per_epoch_bounds (env : Env) (a : args.t) :
  fst (run env a) = Returned tt ->
  exists nt nv m1 c1 m2 c2,
    split_sizes env a = Returned (nt, nv)
    /\ fit_calls (snd (run env a)) = [(m1, c1); (m2, c2)]
    /\ fit_steps_per_epoch c2 = fit_steps_per_epoch c1
    /\ fit_validation_steps c2 = fit_validation_steps c1
    /\ 1 <= fit_steps_per_epoch c1
    /\ 1 <= fit_validation_steps c1
    /\ (0 < args.batch_size a ->
        fit_steps_per_epoch c1 * args.batch_size a <= Z.max nt (args.batch_size a)
        /\ fit_validation_steps c1 * args.batch_size a <= Z.max nv (args.batch_size a))
    /\ (0 < args.batch_size a <= nt ->
        fit_steps_per_epoch c1 * args.batch_size a <= nt
        < (fit_steps_per_epoch c1 + 1) * args.batch_size a)
    /\ (0 < args.batch_size a <= nv ->
        fit_validation_steps c1 * args.batch_size a <= nv
        < (fit_validation_steps c1 + 1) * args.batch_size a)
    /\ (args.batch_size a < 0 -> 0 <= nt -> fit_steps_per_epoch c1 = 1).
Proof.
  intros Hret.
  destruct (fit_calls_returned env a Hret) as (nt & nv & sel & q & Hs & _ & _ & E).
  exists nt, nv. do 4 eexists. split; [exact Hs|]. split; [exact E|].
  cbn [transfer_fit fine_tune_fit fit_call fit_steps_per_epoch fit_validation_steps].
  pose proof (steps_bounds nt (args.batch_size a)) as (T1 & T2 & T3 & T4).
  pose proof (steps_bounds nv (args.batch_size a)) as (V1 & V2 & V3 & _).
  repeat apply conj; auto.
Qed.

Lemma steps_per_epoch_bounds_witness :
  let env := sample_env in
  let a := default_args in
  fst (run env a) = Returned tt
  /\ (exists nt nv m1 c1 m2 c2,
        split_sizes env a = Returned (nt, nv)
        /\ fit_calls (snd (run env a)) = [(m1, c1); (m2, c2)]
        /\ fit_steps_per_epoch c2 = fit_steps_per_epoch c1
        /\ fit_validation_steps c2 = fit_validation_steps c1
        /\ 1 <= fit_steps_per_epoch c1
        /\ 1 <= fit_validation_steps c1
        /\ (0 < args.batch_size a ->
            fit_steps_per_epoch c1 * args.batch_size a <= Z.max nt (args.batch_size a)
            /\ fit_validation_steps c1 * args.batch_size a <= Z.max nv (args.batch_size a))
        /\ (0 < args.batch_size a <= nt ->
            fit_steps_per_epoch c1 * args.batch_size a <= nt
            < (fit_steps_per_epoch c1 + 1) * args.batch_size a)
        /\ (0 < args.batch_size a <= nv ->
            fit_validation_steps c1 * args.batch_size a <= nv
            < (fit_validation_steps c1 + 1) * args.batch_size a)
        /\ (args.batch_size a < 0 -> 0 <= nt -> fit_steps_per_epoch c1 = 1)).
Proof.
  intros env a.
  assert (H : fst (run env a) = Returned tt) by (vm_compute; reflexivity).
  split; [exact H | exact (steps_per_epoch_bounds env a H)].
Defined.

Ltac callback_cases a :=
  cbv zeta; unfold callbacks_stage2, callbacks_stage1, without;
  destruct (truthy (args.decay_type a)),
    (is_str (args.average_type a) "ema" || is_str (args.average_type a) "swa"),
    (args.quantize_aware_training a), (args.eval_online a), (args.data_shuffle a),
    (args.model_pruning a);
  vm_compute.

Ltac nodup_list :=
  repeat (apply NoDup_cons; [simpl; intuition discriminate|]); apply NoDup_nil.

(** The callback lists of both stages, by cases on the options. *)
Lemma callbacks_nodup (a : args.t) :
  NoDup (callbacks_stage1 a) /\ NoDup (callbacks_stage2 a).
Proof.
  callback_cases a; split; nodup_list.
Qed.

Lemma callbacks_optional (a : args.t) :
  let l1 := callbacks_stage1 a in
  let l2 := callbacks_stage2 a in
  (forall c, In c [logging; early_stopping; terminate_on_nan; checkpoint_clean] ->
             In c l1 /\ In c l2)
  /\ (forall l, l = l1 \/ l = l2 ->
        (In checkpoint_q l <-> args.quantize_aware_training a = true)
        /\ (In eval_callback l <-> args.eval_online a = true)
        /\ (In shuffle_callback l <-> args.data_shuffle a = true)
        /\ (In update_pruning_step l <-> args.model_pruning a = true)
        /\ (In pruning_summaries l <-> args.model_pruning a = true))
  /\ ~ In avg_checkpoint l1.
Proof.
  callback_cases a;
    (split; [intros c Hc; simpl in Hc; intuition (subst; simpl; tauto)|]);
    (split; [|intuition discriminate]);
    intros l [-> | ->]; simpl; intuition (discriminate || congruence).
Qed.

(** X6.  The callback lists of the two [fit_generator] calls hold no
    callback twice.  Both hold [logging], [early_stopping],
    [terminate_on_nan] and [checkpoint_clean]; each optional callback is in
    both lists exactly when its option is set ([checkpoint_q]:
    [--quantize_aware_training], [eval_callback]: [--eval_online],
    [shuffle_callback]: [--data_shuffle], the two pruning callbacks:
    [--model_pruning]); the averaging checkpoint is never in the first. *)
Theorem callbacks_distinct_and_optional (env : Env) (a : args.t) :
  fst (run env a) = Returned tt ->
  exists m1 c1 m2 c2,
    fit_calls (snd (run env a)) = [(m1, c1); (m2, c2)]
    /\ NoDup (fit_callbacks c1) /\ NoDup (fit_callbacks c2)
    /\ (forall c, In c [logging; early_stopping; terminate_on_nan; checkpoint_clean] ->
                  In c (fit_callbacks c1) /\ In c (fit_callbacks c2))
    /\ (forall l, l = fit_callbacks c1 \/ l = fit_callbacks c2 ->
          (In checkpoint_q l <-> args.quantize_aware_training a = true)
          /\ (In eval_callback l <-> args.eval_online a = true)
          /\ (In shuffle_callback l <-> args.data_shuffle a = true)
          /\ (In update_pruning_step l <-> args.model_pruning a = true)
          /\ (In pruning_summaries l <-> args.model_pruning a = true))
    /\ ~ In avg_checkpoint (fit_callbacks c1).
Proof.
  intros Hret.
  destruct (fit_calls_returned env a Hret) as (nt & nv & sel & q & _ & _ & _ & E).
  do 4 eexists. split; [exact E|].
  cbn [transfer_fit fine_tune_fit fit_call fit_callbacks].
  pose proof (callbacks_nodup a) as [N1 N2].
  pose proof (callbacks_optional a) as (O1 & O2 & O3).
  repeat apply conj; assumption.
Qed.

Lemma callbacks_distinct_and_optional_witness :
  let env := sample_env in
  let a := args_decay_ema in
  fst (run env a) = Returned tt
  /\ (exists m1 c1 m2 c2,
        fit_calls (snd (run env a)) = [(m1, c1); (m2, c2)]
        /\ NoDup (fit_callbacks c1) /\ NoDup (fit_callbacks c2)
        /\ (forall c, In c [logging; early_stopping; terminate_on_nan; checkpoint_clean] ->
                      In c (fit_callbacks c1) /\ In c (fit_callbacks c2))
        /\ (forall l, l = fit_callbacks c1 \/ l = fit_callbacks c2 ->
              (In checkpoint_q l <-> args.quantize_aware_training a = true)
              /\ (In eval_callback l <-> args.eval_online a = true)
              /\ (In shuffle_callback l <-> args.data_shuffle a = true)
              /\ (In update_pruning_step l <-> args.model_pruning a = true)
              /\ (In pruning_summaries l <-> args.model_pruning a = true))
        /\ ~ In avg_checkpoint (fit_callbacks c1)).
Proof.
  intros env a.
  assert (H : fst (run env a) = Returned tt) by (vm_compute; reflexivity).
  split; [exact H | exact (callbacks_distinct_and_optional env a H)].
Defined.

(** The neighbours of what [insert(-1, ...)] adds. *)
Lemma eval_callback_neighbours (a : args.t) :
  args.eval_online a = true ->
  exists front back,
    callbacks_stage1 a
    = (front
       ++ (if args.quantize_aware_training a
           then [checkpoint_clean; eval_callback; checkpoint_q]
           else [terminate_on_nan; eval_callback; checkpoint_clean])
       ++ back)%list
    /\ back = ((if args.data_shuffle a then [shuffle_callback] else [])
               ++ (if args.model_pruning a
                   then [update_pruning_step; pruning_summaries] else []))%list.
Proof.
  intros He. unfold callbacks_stage1. rewrite He.
  destruct (args.quantize_aware_training a).
  - exists [logging; checkpoint; reduce_lr; early_stopping; terminate_on_nan].
    eexists. split; [|reflexivity].
    destruct (args.data_shuffle a), (args.model_pruning a); reflexivity.
  - exists [logging; checkpoint; reduce_lr; early_stopping].
    eexists. split; [|reflexivity].
    destruct (args.data_shuffle a), (args.model_pruning a); reflexivity.
Qed.

(** X7.  Where [callbacks.insert(-1, eval_callback)] of line 191 puts the
    evaluation callback.  Without quantization-aware training it stands
    right before [checkpoint_clean], as the comment of that line says; with
    it, [checkpoint_q] was appended before (line 116), and the evaluation
    callback stands after [checkpoint_clean], right before
    [checkpoint_q].  The callbacks added later follow. *)
Theorem eval_callback_position (env : Env) (a : args.t) :
  fst (run env a) = Returned tt ->
  args.eval_online a = true ->
  exists m1 c1 rest front back,
    fit_calls (snd (run env a)) = (m1, c1) :: rest
    /\ fit_callbacks c1
       = (front
          ++ (if args.quantize_aware_training a
              then [checkpoint_clean; eval_callback; checkpoint_q]
              else [terminate_on_nan; eval_callback; checkpoint_clean])
          ++ back)%list
    /\ back = ((if args.data_shuffle a then [shuffle_callback] else [])
               ++ (if args.model_pruning a
                   then [update_pruning_step; pruning_summaries] else []))%list.
Proof.
  intros Hret He.
  destruct (fit_calls_returned env a Hret) as (nt & nv & sel & q & _ & _ & _ & E).
  destruct (eval_callback_neighbours a He) as (front & back & H1 & H2).
  do 3 eexists. exists front, back. split; [exact E|].
  cbn [transfer_fit fit_call fit_callbacks]. split; assumption.
Qed.

Lemma eval_callback_position_witness :
  let env := sample_env in
  let a := args_eval_quantized in
  fst (run env a) = Returned tt
  /\ args.eval_online a = true
  /\ (exists m1 c1 rest front back,
        fit_calls (snd (run env a)) = (m1, c1) :: rest
        /\ fit_callbacks c1
           = (front
              ++ (if args.quantize_aware_training a
                  then [checkpoint_clean; eval_callback; checkpoint_q]
                  else [terminate_on_nan; eval_callback; checkpoint_clean])
              ++ back)%list
        /\ back = ((if args.data_shuffle a then [shuffle_callback] else [])
                   ++ (if args.model_pruning a
                       then [update_pruning_step; pruning_summaries] else []))%list).
Proof.
  intros env a.
  assert (H : fst (run env a) = Returned tt) by (vm_compute; reflexivity).
  assert (He : args.eval_online a = true) by reflexivity.
  split; [exact H | split; [exact He | exact (eval_callback_position env a H He)]].
Defined.

Lemma avg_checkpoint_neighbours (a : args.t) :
  is_str (args.average_type a) "ema" || is_str (args.average_type a) "swa" = true ->
  exists front,
    callbacks_stage2 a
    = (front
       ++ [avg_checkpoint;
           if args.model_pruning a then pruning_summaries
           else if args.data_shuffle a then shuffle_callback
           else if args.quantize_aware_training a then checkpoint_q
           else checkpoint_clean])%list
    /\ ~ In avg_checkpoint front
    /\ (In checkpoint_clean front
        <-> args.model_pruning a || args.data_shuffle a
            || args.quantize_aware_training a = true).
Proof.
  intros Ha. unfold callbacks_stage2, callbacks_stage1, without. rewrite Ha.
  destruct (truthy (args.decay_type a)),
    (args.quantize_aware_training a), (args.eval_online a), (args.data_shuffle a),
    (args.model_pruning a); vm_compute;
  match goal with
  | |- exists p, ?L = _ /\ _ =>
      exists (List.removelast (List.removelast L)); split; [reflexivity|];
      simpl; split; [intuition discriminate | intuition (discriminate || congruence)]
  end.
Qed.

(** X8.  Where [callbacks.insert(-1, avg_checkpoint)] of line 264 puts the
    averaging checkpoint: right before the last callback of the list, which
    is [checkpoint_clean] only when neither pruning, nor shuffling, nor
    quantization-aware training added a callback after it; in the other
    cases [checkpoint_clean] stands earlier in the list. *)
Theorem avg_checkpoint_position (env : Env) (a : args.t) :
  fst (run env a) = Returned tt ->
  is_str (args.average_type a) "ema" || is_str (args.average_type a) "swa" = true ->
  exists m1 c1 m2 c2 front,
    fit_calls (snd (run env a)) = [(m1, c1); (m2, c2)]
    /\ fit_callbacks c2
       = (front
          ++ [avg_checkpoint;
              if args.model_pruning a then pruning_summaries
              else if args.data_shuffle a then shuffle_callback
              else if args.quantize_aware_training a then checkpoint_q
              else checkpoint_clean])%list
    /\ ~ In avg_checkpoint front
    /\ (In checkpoint_clean front
        <-> args.model_pruning a || args.data_shuffle a
            || args.quantize_aware_training a = true).
Proof.
  intros Hret Ha.
  destruct (fit_calls_returned env a Hret) as (nt & nv & sel & q & _ & _ & _ & E).
  destruct (avg_checkpoint_neighbours a Ha) as (front & H1 & H2 & H3).
  do 4 eexists. exists front. split; [exact E|].
  cbn [fine_tune_fit fit_call fit_callbacks]. repeat split; try assumption; apply H3.
Qed.

Lemma avg_checkpoint_position_witness :
  let env := sample_env in
  let a := args_decay_ema in
  fst (run env a) = Returned tt
  /\ is_str (args.average_type a) "ema" || is_str (args.average_type a) "swa" = true
  /\ (exists m1 c1 m2 c2 front,
        fit_calls (snd (run env a)) = [(m1, c1); (m2, c2)]
        /\ fit_callbacks c2
           = (front
              ++ [avg_checkpoint;
                  if args.model_pruning a then pruning_summaries
                  else if args.data_shuffle a then shuffle_callback
                  else if args.quantize_aware_training a then checkpoint_q
                  else checkpoint_clean])%list
        /\ ~ In avg_checkpoint front
        /\ (In checkpoint_clean front
            <-> args.model_pruning a || args.data_shuffle a
                || args.quantize_aware_training a = true)).
Proof.
  intros env a.
  assert (H : fst (run env a) = Returned tt) by (vm_compute; reflexivity).
  assert (Ha : is_str (args.average_type a) "ema" || is_str (args.average_type a) "swa"
               = true) by reflexivity.
  split; [exact H | split; [exact Ha | exact (avg_checkpoint_position env a H Ha)]].
Defined.

(** X9.  When lines 245-268 rebuild the optimizer, its [decay_steps] is the
    number of steps per epoch of the fine-tune call times the span
    [epochs - initial_epoch] of that call; it is positive exactly when the
    fine-tune stage has an epoch to run, and then it is the number of
    batches that stage is scheduled for. *)
Theorem decay_steps_of_fine_tune (env : Env) (a : args.t) :
  fst (run env a) = Returned tt ->
  truthy (args.decay_type a) || truthy (args.average_type a) = true ->
  exists m1 c1 m2 c2 decay_steps,
    fit_calls (snd (run env a)) = [(m1, c1); (m2, c2)]
    /\ compiled_with m2
       = get_optimizer (args.optimizer a) (args.learning_rate a)
           (args.average_type a) (args.decay_type a) (Some decay_steps)
    /\ decay_steps = fit_steps_per_epoch c2 * (fit_epochs c2 - fit_initial_epoch c2)
    /\ (0 < decay_steps <-> fit_initial_epoch c2 < fit_epochs c2)
    /\ (0 < decay_steps -> decay_steps = fit_steps_per_epoch c2 * len (epochs_of c2)).
Proof.
  intros Hret Hr.
  destruct (fit_calls_returned env a Hret) as (nt & nv & sel & q & _ & _ & _ & E).
  do 5 eexists. split; [exact E|].
  cbn [unfrozen_model compiled_with fine_tune_fit fit_call fit_steps_per_epoch fit_epochs
       fit_initial_epoch].
  unfold second_optimizer, rebuilds. rewrite Hr.
  split; [reflexivity|].
  split; [ring|].
  assert (S1 : 1 <= Z.max 1 (nt / args.batch_size a)) by lia.
  split.
  - nia.
  - intros Hpos. f_equal.
    assert (0 < args.total_epoch a - args.init_epoch a - args.transfer_epoch a) by nia.
    unfold epochs_of, epochs_run, len.
    rewrite length_map, length_seq.
    cbn [fine_tune_fit fit_epochs fit_initial_epoch fit_call]. lia.
Qed.

Lemma decay_steps_of_fine_tune_witness :
  let env := sample_env in
  let a := args_decay_ema in
  fst (run env a) = Returned tt
  /\ truthy (args.decay_type a) || truthy (args.average_type a) = true
  /\ (exists m1 c1 m2 c2 decay_steps,
        fit_calls (snd (run env a)) = [(m1, c1); (m2, c2)]
        /\ compiled_with m2
           = get_optimizer (args.optimizer a) (args.learning_rate a)
               (args.average_type a) (args.decay_type a) (Some decay_steps)
        /\ decay_steps = fit_steps_per_epoch c2 * (fit_epochs c2 - fit_initial_epoch c2)
        /\ (0 < decay_steps <-> fit_initial_epoch c2 < fit_epochs c2)
        /\ (0 < decay_steps -> decay_steps = fit_steps_per_epoch c2 * len (epochs_of c2))).
Proof.
  intros env a.
  assert (H : fst (run env a) = Returned tt) by (vm_compute; reflexivity).
  assert (Hr : truthy (args.decay_type a) || truthy (args.average_type a) = true)
    by reflexivity.
  split; [exact H | split; [exact Hr | exact (decay_steps_of_fine_tune env a H Hr)]].
Defined.

(** X10.  The generators of lines 229-232 and 287-290.  In both stages the
    training and the validation generator are built by the same wrapper
    from the same batch size, input shape, anchors, class count and
    multi-anchor flag; only the training generator receives the
    augmentation type and the rescale interval, which is [-1] unless
    [--multiscale] is set; the fit calls use one worker, no multiprocessing
    and a queue of 10. *)
Theorem generators_of_both_stages (env : Env) (a : args.t) :
  fst (run env a) = Returned tt ->
  exists m1 c1 m2 c2,
    fit_calls (snd (run env a)) = [(m1, c1); (m2, c2)]
    /\ (forall c, c = c1 \/ c = c2 ->
          let train := fit_generator_arg c in
          let val := fit_validation_data c in
          gen_fn val = gen_fn train
          /\ gen_batch_size train = args.batch_size a
          /\ gen_batch_size val = args.batch_size a
          /\ gen_input_shape train = args.model_input_shape a
          /\ gen_input_shape val = args.model_input_shape a
          /\ gen_anchors val = gen_anchors train
          /\ gen_num_classes val = gen_num_classes train
          /\ gen_multi_anchor_assign train = args.multi_anchor_assign a
          /\ gen_multi_anchor_assign val = args.multi_anchor_assign a
          /\ gen_enhance_augment train = Some (args.enhance_augment a)
          /\ gen_rescale_interval train
             = Some (if args.multiscale a then args.rescale_interval a else -1)
          /\ gen_enhance_augment val = None
          /\ gen_rescale_interval val = None
          /\ fit_workers c = 1
          /\ fit_use_multiprocessing c = false
          /\ fit_max_queue_size c = 10)
    /\ gen_fn (fit_generator_arg c2) = gen_fn (fit_generator_arg c1)
    /\ gen_anchors (fit_generator_arg c2) = gen_anchors (fit_generator_arg c1)
    /\ gen_num_classes (fit_generator_arg c2) = gen_num_classes (fit_generator_arg c1).
Proof.
  intros Hret.
  destruct (fit_calls_returned env a Hret) as (nt & nv & sel & q & _ & _ & _ & E).
  do 4 eexists. split; [exact E|].
  split; [|repeat split].
  intros c [-> | ->]; cbv zeta; repeat apply conj; reflexivity.
Qed.

Lemma generators_of_both_stages_witness :
  let env := sample_env in
  let a := default_args in
  fst (run env a) = Returned tt
  /\ (exists m1 c1 m2 c2,
    fit_calls (snd (run env a)) = [(m1, c1); (m2, c2)]
    /\ (forall c, c = c1 \/ c = c2 ->
          let train := fit_generator_arg c in
          let val := fit_validation_data c in
          gen_fn val = gen_fn train
          /\ gen_batch_size train = args.batch_size a
          /\ gen_batch_size val = args.batch_size a
          /\ gen_input_shape train = args.model_input_shape a
          /\ gen_input_shape val = args.model_input_shape a
          /\ gen_anchors val = gen_anchors train
          /\ gen_num_classes val = gen_num_classes train
          /\ gen_multi_anchor_assign train = args.multi_anchor_assign a
          /\ gen_multi_anchor_assign val = args.multi_anchor_assign a
          /\ gen_enhance_augment train = Some (args.enhance_augment a)
          /\ gen_rescale_interval train
             = Some (if args.multiscale a then args.rescale_interval a else -1)
          /\ gen_enhance_augment val = None
          /\ gen_rescale_interval val = None
          /\ fit_workers c = 1
          /\ fit_use_multiprocessing c = false
          /\ fit_max_queue_size c = 10)
    /\ gen_fn (fit_generator_arg c2) = gen_fn (fit_generator_arg c1)
    /\ gen_anchors (fit_generator_arg c2) = gen_anchors (fit_generator_arg c1)
    /\ gen_num_classes (fit_generator_arg c2) = gen_num_classes (fit_generator_arg c1)).
Proof.
  intros env a.
  assert (H : fst (run env a) = Returned tt) by (vm_compute; reflexivity).
  split; [exact H | exact (generators_of_both_stages env a H)].
Defined.

(** [str] writes different integers differently. *)
Lemma str_of_int_inj (n m : Z) : str_of_int n = str_of_int m -> n = m.
Proof.
  unfold str_of_int. intros H.
  assert (N : forall z, Z.to_int z <> Decimal.Pos Decimal.Nil
                        /\ Z.to_int z <> Decimal.Neg Decimal.Nil).
  { intros [|p|p]; split; simpl; try discriminate;
      intros E; injection E as E; exact (DecimalPos.Unsigned.to_uint_nonnil p E). }
  apply DecimalZ.to_int_inj.
  assert (E : Some (Z.to_int n) = Some (Z.to_int m)).
  { rewrite <- (NilZero.isi (Z.to_int n)) by apply N.
    rewrite <- (NilZero.isi (Z.to_int m)) by apply N.
    rewrite H. reflexivity. }
  congruence.
Qed.

Lemma string_app_inj_l (p s t : string) : (p ++ s = p ++ t)%string -> s = t.
Proof. induction p as [|c p IH]; simpl; [auto|]. intros H. injection H as H. auto. Qed.

Lemma NoDup_map_injective {A B} (f : A -> B) (l : list A) :
  (forall x y, f x = f y -> x = y) -> NoDup l -> NoDup (map f l).
Proof.
  intros Hf. induction 1 as [|x l Hx Hl IH]; simpl; constructor; [|exact IH].
  rewrite in_map_iff. intros (y & E & Hy). apply Hf in E. subst y. contradiction.
Qed.

Lemma devices_distinct (a : args.t) : NoDup (devices_list a).
Proof.
  unfold devices_list, range.
  apply NoDup_map_injective; [|apply seq_NoDup].
  intros i j H. apply string_app_inj_l, str_of_int_inj in H. lia.
Qed.

(** X11.  A mirrored strategy is created only for [gpu_num >= 2], over the
    device list of line 210, which names [gpu_num] devices, no device
    twice. *)
Theorem strategy_devices (env : Env) (a : args.t) (d : list string) :
  In (MirroredStrategy d) (snd (run env a)) ->
  2 <= args.gpu_num a /\ d = devices_list a /\ NoDup d /\ len d = args.gpu_num a.
Proof.
  intros H.
  destruct (run_trace env a) as [E|(nt & nv & sel & q & _ & _ & E)]; rewrite E in H;
    [contradiction|].
  unfold expected_trace in H. apply in_app_or in H as [H|H];
    [|exfalso; exact (no_strategy_after_build env a nt nv sel q d H)].
  unfold build_events in H.
  destruct (Z.leb_spec 2 (args.gpu_num a)) as [Hg|Hg]; simpl in H;
    [|intuition discriminate].
  destruct H as [H|[H|[H|[]]]]; try discriminate. injection H as <-.
  repeat split; [exact Hg|apply devices_distinct|].
  destruct (devices_list_spec a) as [L _]. rewrite L. lia.
Qed.

Lemma strategy_devices_witness :
  let env := sample_env in
  let a := args_two_gpus in
  let d := ["/gpu:0"; "/gpu:1"] in
  In (MirroredStrategy d) (snd (run env a))
  /\ 2 <= args.gpu_num a /\ d = devices_list a /\ NoDup d /\ len d = args.gpu_num a.
Proof.
  intros env a d.
  assert (H : In (MirroredStrategy d) (snd (run env a))) by (vm_compute; tauto).
  split; [exact H | exact (strategy_devices env a d H)].
Defined.

(** X12.  The loop of lines 276-277 and 281-282 changes nothing but the
    [trainable] flag: the model of the fine-tune stage has the layers of the
    trained transfer model, in the same order and under the same names, each
    with its flag set; a layer that was trainable already is unchanged. *)
Theorem unfreeze_keeps_layer_names (env : Env) (a : args.t) :
  fst (run env a) = Returned tt ->
  exists m1 c1 m2 c2,
    fit_calls (snd (run env a)) = [(m1, c1); (m2, c2)]
    /\ map layer_name (layers m2) = map layer_name (layers (fit_generator env m1 c1))
    /\ (forall l, In l (layers (fit_generator env m1 c1)) -> trainable l = true ->
                  In l (layers m2))
    /\ (forall i l, nth_error (layers (fit_generator env m1 c1)) i = Some l ->
                    nth_error (layers m2) i
                    = Some {| layer_name := layer_name l; trainable := true |}).
Proof.
  intros Hret.
  destruct (fit_calls_returned env a Hret) as (nt & nv & sel & q & _ & _ & _ & E).
  do 4 eexists. split; [exact E|].
  cbn [unfrozen_model layers]. fold (transferred_model env a nt nv sel q).
  repeat split.
  - rewrite map_map. reflexivity.
  - intros l Hl Ht. apply in_map_iff. exists l. split; [|exact Hl].
    destruct l as [n t]. simpl in Ht. subst t. reflexivity.
  - intros i l Hl. rewrite nth_error_map, Hl. reflexivity.
Qed.

Lemma unfreeze_keeps_layer_names_witness :
  let env := sample_env in
  let a := default_args in
  fst (run env a) = Returned tt
  /\ (exists m1 c1 m2 c2,
    fit_calls (snd (run env a)) = [(m1, c1); (m2, c2)]
    /\ map layer_name (layers m2) = map layer_name (layers (fit_generator env m1 c1))
    /\ (forall l, In l (layers (fit_generator env m1 c1)) -> trainable l = true ->
                  In l (layers m2))
    /\ (forall i l, nth_error (layers (fit_generator env m1 c1)) i = Some l ->
                    nth_error (layers m2) i
                    = Some {| layer_name := layer_name l; trainable := true |})).
Proof.
  intros env a.
  assert (H : fst (run env a) = Returned tt) by (vm_compute; reflexivity).
  split; [exact H | exact (unfreeze_keeps_layer_names env a H)].
Defined.

(** *** Strings *)

Lemma chars_app (s t : string) :
  list_ascii_of_string (s ++ t) = (list_ascii_of_string s ++ list_ascii_of_string t)%list.
Proof. induction s as [|c s IH]; simpl; [reflexivity|]. now rewrite IH. Qed.

Lemma str_split_nonempty (sep : ascii) (s : string) : str_split sep s <> [].
Proof.
  induction s as [|c s IH]; simpl; [discriminate|].
  destruct (c =? sep)%char; [discriminate|].
  destruct (str_split sep s); [contradiction|discriminate].
Qed.



Lemma str_split_length (sep : ascii) (s : string) :
  List.length (str_split sep s) = S (count_occ ascii_dec (list_ascii_of_string s) sep).
Proof.
  induction s as [|c s IH]; simpl; [reflexivity|].
  destruct (Ascii.eqb_spec c sep) as [->|Hc].
  - destruct (ascii_dec sep sep); [|contradiction]. simpl. now rewrite IH.
  - destruct (ascii_dec c sep); [contradiction|].
    destruct (str_split sep s) eqn:E; [now apply str_split_nonempty in E|].
    simpl in *. exact IH.
Qed.

(** *** [strip] *)




(** *** Decimal digits *)

Lemma uint_chars (d : Decimal.uint) :
  Forall (fun c => In c decimal_digits) (list_ascii_of_string (NilEmpty.string_of_uint d)).
Proof.
  induction d; simpl; constructor; try assumption; vm_compute; tauto.
Qed.




Lemma str_of_int_chars (n : Z) :
  Forall (fun c => In c literal_chars) (list_ascii_of_string (str_of_int n)).
Proof.
  assert (U : forall d, Forall (fun c => In c literal_chars)
                          (list_ascii_of_string (NilEmpty.string_of_uint d))).
  { intros d. eapply Forall_impl; [|apply uint_chars].
    intros c Hc. unfold literal_chars. simpl in *. tauto. }
  unfold str_of_int. destruct n as [|p|p]; cbn [Z.to_int NilZero.string_of_int].
  - vm_compute. repeat constructor.
  - unfold NilZero.string_of_uint.
    destruct (Pos.to_uint p) eqn:E; try (rewrite <- E; apply U).
    vm_compute. repeat constructor.
  - cbn [list_ascii_of_string]. constructor; [vm_compute; tauto|].
    unfold NilZero.string_of_uint.
    destruct (Pos.to_uint p) eqn:E; try (rewrite <- E; apply U).
    vm_compute. repeat constructor.
Qed.








Lemma int_of_str_raises (s : string) (e : exn) :
  int_of_str s = Raised e -> exists msg, e = ValueError msg.
Proof.
  unfold int_of_str. destruct (digits_value _ _ _); [discriminate|].
  intros H. inversion H. eauto.
Qed.


(** *** The script (lines 382-386) *)



Lemma run_script_eq env a s :
  run_script env a s
  = match parse_model_input_shape s with
    | Raised e => (Raised e, [])
    | Returned shape => run env (with_model_input_shape shape a)
    end.
Proof.
  unfold run_script, script, bind, lift, run.
  destruct (parse_model_input_shape s); reflexivity.
Qed.



(** X14.  A [--model_input_shape] text that does not hold exactly one
    [x] stops the script at the unpacking of line 383 with a [ValueError],
    before anything of [main] has run. *)
Theorem script_needs_one_x (env : Env) (a : args.t) (text : string) :
  count_occ ascii_dec (list_ascii_of_string text) "x"%char <> 1%nat ->
  exists msg, run_script env a text = (Raised (ValueError msg), []).
Proof.
  intros H. rewrite run_script_eq. unfold parse_model_input_shape.
  pose proof (str_split_length "x" text) as L.
  destruct (str_split "x" text) as [|u [|v [|t r]]]; cbn [unpack2]; eauto.
  simpl in L. congruence.
Qed.

Lemma script_needs_one_x_witness :
  count_occ ascii_dec (list_ascii_of_string "416X416") "x"%char <> 1%nat
  /\ exists msg, run_script sample_env default_args "416X416" = (Raised (ValueError msg), []).
Proof.
  assert (H : count_occ ascii_dec (list_ascii_of_string "416X416") "x"%char <> 1%nat)
    by (vm_compute; discriminate).
  split; [exact H | exact (script_needs_one_x sample_env default_args "416X416" H)].
Defined.

Lemma str_split_one (sep : ascii) (s v : string) :
  str_split sep s = [v] -> s = v /\ ~ In sep (list_ascii_of_string s).
Proof.
  revert v. induction s as [|c s IH]; simpl; intros v H.
  - split; [congruence|tauto].
  - destruct (Ascii.eqb_spec c sep) as [->|Hc].
    + pose proof (str_split_nonempty sep s). destruct (str_split sep s); congruence.
    + destruct (str_split sep s) as [|p ps] eqn:E; [now apply str_split_nonempty in E|].
      injection H as <- ->. destruct (IH p eq_refl) as [-> Hn].
      split; [reflexivity|]. intros [Hx|Hx]; [congruence|tauto].
Qed.

(** A text that splits in exactly two parts holds the separator once. *)
Lemma str_split_two (sep : ascii) (s u v : string) :
  str_split sep s = [u; v] ->
  s = u ++ String sep v
  /\ ~ In sep (list_ascii_of_string u) /\ ~ In sep (list_ascii_of_string v).
Proof.
  revert u. induction s as [|c s IH]; simpl; intros u H; [discriminate|].
  destruct (Ascii.eqb_spec c sep) as [->|Hc].
  - injection H as <- H. apply str_split_one in H as [-> Hn]. simpl. tauto.
  - destruct (str_split sep s) as [|p ps] eqn:E; [discriminate|].
    injection H as <- ->. destruct (IH p eq_refl) as (-> & Hp & Hv).
    repeat split; [|exact Hv]. simpl. intros [Hx|Hx]; [congruence|tauto].
Qed.

Lemma digits_value_chars (cs : list ascii) :
  forall b acc v, digits_value b acc cs = Some v -> Forall (fun c => In c number_chars) cs.
Proof.
  induction cs as [|c cs IH]; intros b acc v H; [constructor|].
  simpl in H. destruct (Ascii.eqb_spec c "_") as [->|Hc].
  - destruct b; [|discriminate]. constructor; [vm_compute; tauto|eauto].
  - destruct (digit_value c) as [d|] eqn:Hd; [|discriminate].
    constructor; [|eauto].
    unfold digit_value in Hd.
    destruct ((48 <=? nat_of_ascii c)%nat && (nat_of_ascii c <=? 57)%nat) eqn:Hr;
      [|discriminate].
    apply andb_prop in Hr as [H1 H2].
    apply Nat.leb_le in H1, H2.
    rewrite <- (ascii_nat_embedding c).
    assert (Hn : In (nat_of_ascii c) (seq 48 10)) by (apply in_seq; lia).
    revert Hn. generalize (nat_of_ascii c). intros n Hn.
    simpl in Hn. vm_compute. intuition (subst n; tauto).
Qed.

Lemma lstrip_chars (cs : list ascii) (c : ascii) :
  In c cs -> is_space c = true \/ In c (lstrip cs).
Proof.
  induction cs as [|c0 cs IH]; simpl; [tauto|].
  destruct (is_space c0) eqn:E.
  - intros [<-|H]; auto.
  - simpl. tauto.
Qed.

Lemma strip_chars (cs : list ascii) (c : ascii) :
  In c cs -> is_space c = true \/ In c (strip cs).
Proof.
  intros H. unfold strip.
  apply lstrip_chars in H as [H|H]; [auto|].
  apply in_rev, lstrip_chars in H as [H|H]; [auto|].
  right. apply in_rev in H. exact H.
Qed.

Lemma int_of_str_chars (s : string) (n : Z) :
  int_of_str s = Returned n ->
  Forall (fun c => is_space c = true \/ In c number_chars) (list_ascii_of_string s).
Proof.
  unfold int_of_str. intros H. apply Forall_forall. intros c Hc.
  apply strip_chars in Hc as [Hc|Hc]; [auto|]. right.
  destruct (strip (list_ascii_of_string s)) as [|c0 body]; [contradiction|].
  destruct (Ascii.eqb_spec c0 "-") as [->|Hm];
    [|destruct (Ascii.eqb_spec c0 "+") as [->|Hp]]; cbn [fst snd] in H.
  - destruct (digits_value false 0 body) eqn:E; [|discriminate].
    apply digits_value_chars in E. rewrite Forall_forall in E.
    destruct Hc as [<-|Hc]; [vm_compute; tauto|auto].
  - destruct (digits_value false 0 body) eqn:E; [|discriminate].
    apply digits_value_chars in E. rewrite Forall_forall in E.
    destruct Hc as [<-|Hc]; [vm_compute; tauto|auto].
  - destruct (digits_value false 0 (c0 :: body)) eqn:E; [|discriminate].
    apply digits_value_chars in E. rewrite Forall_forall in E. auto.
Qed.

(** X15.  The outcomes of lines 383-384.  A text that is accepted
    consists of two parts joined by a single [x], each read by [int], and
    holds nothing but digits, underscores, signs and white space besides
    that [x]; a text that is rejected raises a [ValueError], never another
    exception. *)
Theorem parse_model_input_shape_outcomes (text : string) :
  (forall h w,
     parse_model_input_shape text = Returned (h, w) ->
     exists height width,
       text = height ++ "x" ++ width
       /\ int_of_str height = Returned h /\ int_of_str width = Returned w
       /\ Forall (fun c => is_space c = true \/ In c number_chars)
                 (list_ascii_of_string height ++ list_ascii_of_string width))
  /\ (forall e, parse_model_input_shape text = Raised e -> exists msg, e = ValueError msg).
Proof.
  unfold parse_model_input_shape. split.
  - intros h w H.
    destruct (str_split "x" text) as [|u [|v [|t r]]] eqn:E; cbn [unpack2] in H;
      try discriminate.
    destruct (int_of_str u) as [|h'] eqn:Hu; [discriminate|].
    destruct (int_of_str v) as [|w'] eqn:Hv; [discriminate|].
    injection H as -> ->.
    apply str_split_two in E as (-> & _ & _).
    exists u, v. repeat split; try assumption.
    apply Forall_app. split; eapply int_of_str_chars; eassumption.
  - intros e H.
    destruct (str_split "x" text) as [|u [|v [|t r]]] eqn:E; cbn [unpack2] in H;
      try (inversion H; eauto; fail).
    destruct (int_of_str u) as [e'|h'] eqn:Hu.
    + inversion H; subst. eapply int_of_str_raises; eassumption.
    + destruct (int_of_str v) as [e'|w'] eqn:Hv; [|discriminate].
      inversion H; subst. eapply int_of_str_raises; eassumption.
Qed.

(** *** The files written *)


Lemma chars_inj (s t : string) : list_ascii_of_string s = list_ascii_of_string t -> s = t.
Proof.
  intros H. rewrite <- (string_of_list_ascii_of_string s), H.
  apply string_of_list_ascii_of_string.
Qed.

(** Two texts that start with a number and go on with another character
    agree only when the numbers do. *)
Lemma literal_prefix_code (u u' : list ascii) (c c' : ascii) (r r' : list ascii) :
  Forall (fun x => In x literal_chars) u -> Forall (fun x => In x literal_chars) u' ->
  ~ In c literal_chars -> ~ In c' literal_chars ->
  (u ++ c :: r = u' ++ c' :: r')%list -> u = u' /\ c = c' /\ r = r'.
Proof.
  intros Hu. revert u'. induction Hu as [|x u Hx Hu IH]; intros u' Hu' Hc Hc' E.
  - destruct Hu' as [|x' u' Hx' Hu']; simpl in E.
    + injection E as -> ->. auto.
    + injection E as -> _. contradiction.
  - destruct Hu' as [|x' u' Hx' Hu']; simpl in E.
    + injection E as -> _. contradiction.
    + injection E as -> E. destruct (IH u' Hu' Hc Hc' E) as (-> & -> & ->). auto.
Qed.

Lemma epoch_file_inj (e e' : Z) (suffix suffix' : string) (c c' : ascii) :
  ~ In c literal_chars -> ~ In c' literal_chars ->
  "logs/quant/trained_" ++ str_of_int e ++ String c suffix
  = "logs/quant/trained_" ++ str_of_int e' ++ String c' suffix' ->
  e = e' /\ c = c' /\ suffix = suffix'.
Proof.
  intros Hc Hc' E. apply string_app_inj_l in E.
  apply (f_equal list_ascii_of_string) in E. rewrite !chars_app in E.
  cbn [list_ascii_of_string] in E.
  apply literal_prefix_code in E as (E1 & E2 & E3);
    try apply str_of_int_chars; try assumption.
  apply chars_inj, str_of_int_inj in E1. apply chars_inj in E3. auto.
Qed.

Lemma epoch_end_paths (a : args.t) (model : Model) (k e : Z) :
  written_paths (epoch_end_trace a model k e)
  = ["logs/quant/trained_" ++ str_of_int e ++ ".h5";
     "logs/quant/trained_" ++ str_of_int e ++ "_uint8.tflite"].
Proof. reflexivity. Qed.

Lemma not_literal_dot : ~ In "."%char literal_chars.
Proof. vm_compute. intuition discriminate. Qed.

Lemma not_literal_underscore : ~ In "_"%char literal_chars.
Proof. vm_compute. intuition discriminate. Qed.

(** X17.  The files [on_epoch_end] writes are determined by the epoch
    alone: two files per epoch, distinct from each other; the same epoch
    gives the same two paths whatever the model, the options and the
    counter; two calls that share a path are calls for the same epoch, so no
    epoch overwrites the files of another. *)
Theorem epoch_files_by_epoch (a a' : args.t) (model model' : Model) (k k' e e' : Z) :
  let files := written_paths (epoch_end_trace a model k e) in
  let files' := written_paths (epoch_end_trace a' model' k' e') in
  NoDup files
  /\ List.length files = 2%nat
  /\ (e = e' -> files = files')
  /\ (forall p, In p files -> In p files' -> e = e').
Proof.
  cbv zeta. rewrite !epoch_end_paths.
  pose proof not_literal_dot as Hd. pose proof not_literal_underscore as Hu.
  repeat split.
  - constructor; [|constructor; [simpl; tauto|constructor]].
    simpl. intros [H|[]]. apply epoch_file_inj in H as (_ & H & _); try assumption.
    discriminate.
  - intros ->. reflexivity.
  - simpl. intros p [<-|[<-|[]]] [H|[H|[]]];
      apply epoch_file_inj in H as (H & _ & _); auto.
Qed.




End Train.
